(** * citizenai: the account store and the chat gateway of [app.py]

    A shallow embedding of the logic-bearing functions of [app.py]:

    - the user database helpers [init_user_db], [get_users], [save_users],
      [find_user], and on top of them [register_user] and [verify_user];
    - the gateway [generate_ai_response] with its [try]/[except] mapping;
    - the route handlers [send_message], [feedback], [login], [signup],
      [logout], [chat] and [dashboard], over an explicit session.

    A Python [str] is the list of its code points; the file [users.json]
    is part of an explicit [disk] state that is threaded through the
    database helpers; a call either returns a value or raises an [exn].
    What the program takes from outside (the
    password hashing of werkzeug, the random salt, the clock, the answer
    of the remote endpoint) is a parameter of the functions below. *)

From Stdlib Require Import String Ascii List Bool NArith ZArith Lia.
From Stdlib Require Import Floats.SpecFloat.
Import ListNotations.
Local Open Scope string_scope.
Local Open Scope list_scope.
Set Warnings "-register-all".

(** ** Strings *)

(** A Python [str]: its code points, in order. *)
Definition str : Type := list N.

(** The [str] of a literal of the source (all of them are ASCII). *)
Definition py (s : string) : str :=
  map N_of_ascii (list_ascii_of_string s).

(** [a == b] on two [str]. *)
Fixpoint str_eqb (a b : str) : bool :=
  match a, b with
  | [], [] => true
  | x :: a', y :: b' => N.eqb x y && str_eqb a' b'
  | _, _ => false
  end.

(** [c.isspace()] for a single code point: the white space of the Unicode
    database that CPython consults. *)
Definition isspace (c : N) : bool :=
  ((9 <=? c) && (c <=? 13) || (28 <=? c) && (c <=? 32)
   || (c =? 133) || (c =? 160) || (c =? 5760)
   || (8192 <=? c) && (c <=? 8202)
   || (c =? 8232) || (c =? 8233) || (c =? 8239) || (c =? 8287)
   || (c =? 12288))%N.

Fixpoint lstrip (s : str) : str :=
  match s with
  | [] => []
  | c :: rest => if isspace c then lstrip rest else s
  end.

Definition rstrip (s : str) : str := rev (lstrip (rev s)).

(** [s.strip()] *)
Definition strip (s : str) : str := rstrip (lstrip s).

(** ** Text *)

(** The code points U+D800 to U+DFFF, and the two halves of that range. *)
Definition is_surrogate (c : N) : bool :=
  ((55296 <=? c) && (c <=? 57343))%N.

Definition is_high_surrogate (c : N) : bool :=
  ((55296 <=? c) && (c <=? 56319))%N.

Definition is_low_surrogate (c : N) : bool :=
  ((56320 <=? c) && (c <=? 57343))%N.

(** A [str] of Unicode scalar values: what the decoding of a form or of a
    file gives, and what [s.encode()] accepts; on a [str] with a surrogate
    [s.encode()] raises [UnicodeEncodeError]. *)
Definition is_text (s : str) : bool :=
  forallb (fun c => negb (is_surrogate c) && (c <=? 1114111)%N) s.

(** [json.loads(json.dumps(s))]: the escapes of a high surrogate directly
    followed by a low one are read back as the one code point they
    encode; every other [str] comes back as it is. *)
Fixpoint json_reload (s : str) : str :=
  match s with
  | [] => []
  | c :: rest =>
      match rest with
      | l :: rest' =>
          if is_high_surrogate c && is_low_surrogate l
          then (65536 + (c - 55296) * 1024 + (l - 56320))%N :: json_reload rest'
          else c :: json_reload rest
      | [] => [c]
      end
  end.

(** ** Values *)

(** The values [json.load], [request.json] and [response.json()] produce.
    An object is the list of its items in insertion order, with distinct
    keys, as the decoded [dict] has them. *)
Inductive json : Type :=
| JNull
| JBool (b : bool)
| JInt (n : Z)
| JFloat (f : spec_float)
| JStr (s : str)
| JList (l : list json)
| JDict (d : list (str * json)).

(** A record of [users.json]: the [dict] that [register_user] builds. *)
Record user : Type := mkUser {
  u_email : str;
  u_password : str;
  u_first_name : str;
  u_last_name : str;
  u_created_at : str
}.

(** The items of a user [dict], in the order [register_user] inserts them. *)
Definition user_items (u : user) : list (str * str) :=
  [ (py "email", u_email u);
    (py "password", u_password u);
    (py "first_name", u_first_name u);
    (py "last_name", u_last_name u);
    (py "created_at", u_created_at u) ].

(** The second component of what [register_user] and [verify_user] return:
    a message, or the user [dict]. *)
Inductive pyval : Type :=
| PStr (s : str)
| PUser (u : user).

(** The keys of a returned value, when it is a [dict]. *)
Definition pyval_keys (v : pyval) : list str :=
  match v with
  | PStr _ => []
  | PUser u => map fst (user_items u)
  end.

(** Every string that a returned value carries. *)
Definition pyval_strings (v : pyval) : list str :=
  match v with
  | PStr s => [s]
  | PUser u => map snd (user_items u)
  end.

(** ** The disk *)

(** [users_json] is the content of the file [app.config['USER_DB']], [None]
    while the file does not exist.  [dumped] is the history of the
    [json.dump] calls on that file, oldest first. *)
Record disk : Type := mkDisk {
  users_json : option (list user);
  dumped : list (list user)
}.

(** Computations that read and write the disk. *)
Definition io (A : Type) : Type := disk -> A * disk.

Definition ret {A : Type} (a : A) : io A := fun d => (a, d).

Definition bind {A B : Type} (m : io A) (k : A -> io B) : io B :=
  fun d => let (a, d') := m d in k a d'.

Declare Scope io_scope.
Delimit Scope io_scope with io.
Notation "x <- m ;; k" := (bind m (fun x => k))
  (at level 100, m at next level, right associativity) : io_scope.
Notation "m ;;; k" := (bind m (fun _ => k))
  (at level 100, right associativity) : io_scope.
Local Open Scope io_scope.

(** [os.path.exists(app.config['USER_DB'])] *)
Definition path_exists : io bool :=
  fun d => (match users_json d with Some _ => true | None => false end, d).

(** [with open(app.config['USER_DB'], 'w') as f: json.dump(users, f)].
    The content of the file is held as [json.load] reads it back, which is
    the list that was dumped when its strings are [is_text] ([json_reload]
    is the identity on them). *)
Definition json_dump (users : list user) : io unit :=
  fun d => (tt, {| users_json := Some users; dumped := dumped d ++ [users] |}).

(** [with open(app.config['USER_DB'], 'r') as f: return json.load(f)].
    The only caller runs [init_user_db] first, so the file exists; the
    [None] branch is there to keep the function total. *)
Definition json_load : io (list user) :=
  fun d => (match users_json d with Some users => users | None => [] end, d).

Definition init_user_db : io unit :=
  e <- path_exists ;;
  if negb e then json_dump [] else ret tt.

Definition get_users : io (list user) :=
  init_user_db ;;;
  json_load.

Definition save_users (users : list user) : io unit :=
  json_dump users.

(** The loop of [find_user]: the first record whose email is the given
    one. *)
Fixpoint find_user_loop (email : str) (users : list user) : option user :=
  match users with
  | [] => None
  | user :: rest =>
      if str_eqb (u_email user) email then Some user
      else find_user_loop email rest
  end.

Definition find_user (email : str) : io (option user) :=
  users <- get_users ;;
  ret (find_user_loop email users).

(** Truth value of what [find_user] returns: [None] is false, and a user
    [dict] is not empty, hence true. *)
Definition truthy_user (r : option user) : bool :=
  match r with
  | Some _ => true
  | None => false
  end.

Section Auth.

(** [werkzeug.security]: [generate_password_hash] draws a random salt,
    which is its first argument here; [check_password_hash pwhash
    password] is the comparison.  Both encode the password, which takes a
    password that [is_text]. *)
Variable generate_password_hash : str -> str -> str.
Variable check_password_hash : str -> str -> bool.

(** [salt] is the salt drawn by [generate_password_hash] and [now] the
    value of [datetime.now().isoformat()] during the call. *)
Definition register_user (salt now : str)
    (email password first_name last_name : str) : io (bool * str) :=
  found <- find_user email ;;
  if truthy_user found then ret (false, py "Email already registered")
  else
    users <- get_users ;;
    let users := users ++ [ {| u_email := email;
                               u_password := generate_password_hash salt password;
                               u_first_name := first_name;
                               u_last_name := last_name;
                               u_created_at := now |} ] in
    save_users users ;;;
    ret (true, py "").

Definition verify_user (email password : str) : io (bool * pyval) :=
  found <- find_user email ;;
  match found with
  | None => ret (false, PStr (py "User not found"))
  | Some user =>
      if negb (check_password_hash (u_password user) password)
      then ret (false, PStr (py "Incorrect password"))
      else ret (true, PUser user)
  end.

End Auth.

(** The user records that [get_users] reads from a disk. *)
Definition stored_users (d : disk) : list user :=
  match users_json d with
  | Some users => users
  | None => []
  end.

(** A run of the account functions: the calls the routes [signup] and
    [login] make, with what each one draws from outside. *)
Inductive call : Type :=
| Register (salt now email password first_name last_name : str)
| Verify (email password : str).

Section Runs.

Variable generate_password_hash : str -> str -> str.
Variable check_password_hash : str -> str -> bool.

Definition run_call (c : call) (d : disk) : disk :=
  match c with
  | Register salt now email password first_name last_name =>
      snd (register_user generate_password_hash salt now
             email password first_name last_name d)
  | Verify email password =>
      snd (verify_user check_password_hash email password d)
  end.

Fixpoint run_calls (cs : list call) (d : disk) : disk :=
  match cs with
  | [] => d
  | c :: rest => run_calls rest (run_call c d)
  end.

(** The plaintext passwords of the registrations of a run that
    succeeded, oldest first: one for every record the run stored. *)
Fixpoint registered_passwords (cs : list call) (d : disk) : list str :=
  match cs with
  | [] => []
  | c :: rest =>
      let later := registered_passwords rest (run_call c d) in
      match c with
      | Register salt now email password first_name last_name =>
          if fst (fst (register_user generate_password_hash salt now
                         email password first_name last_name d))
          then password :: later
          else later
      | Verify _ _ => later
      end
  end.

End Runs.

(** The disk before the application has run: no [users.json]. *)
Definition no_file : disk := {| users_json := None; dumped := [] |}.

(** A stand-in for werkzeug's hashing, to run the functions on concrete
    inputs: the hash is a checksum of salt and password, followed by
    ["$"] and the salt. *)
Definition checksum (s : str) : N := fold_right N.add 0%N s.

Definition demo_digest (salt password : str) : N :=
  (37 + checksum salt + checksum password)%N.

Definition demo_generate_password_hash (salt password : str) : str :=
  demo_digest salt password :: py "$" ++ salt.

Definition demo_check_password_hash (pwhash password : str) : bool :=
  match pwhash with
  | digest :: sep :: salt =>
      (sep =? 36)%N && (digest =? demo_digest salt password)%N
  | _ => false
  end.

(** ** Exceptions *)

Inductive exn : Type :=
(* httpx.TimeoutException *)
| ConnectTimeout | ReadTimeout | WriteTimeout | PoolTimeout
(* httpx.NetworkError *)
| ConnectError | ReadError | WriteError | CloseError
(* the other subclasses of httpx.TransportError *)
| ProxyError | UnsupportedProtocol | LocalProtocolError | RemoteProtocolError
(* the other subclasses of httpx.RequestError *)
| DecodingError | TooManyRedirects
(* httpx.HTTPStatusError, a subclass of httpx.HTTPError only *)
| HTTPStatusError (status_code : Z)
(* built-in exceptions *)
| JSONDecodeError | AttributeError | KeyError | IndexError | TypeError
(* werkzeug.exceptions, raised by request.json *)
| BadRequest | UnsupportedMediaType
(* asyncio.CancelledError, a BaseException that is no Exception *)
| CancelledError.

(** [isinstance(e, httpx.TimeoutException)] *)
Definition is_TimeoutException (e : exn) : bool :=
  match e with
  | ConnectTimeout | ReadTimeout | WriteTimeout | PoolTimeout => true
  | _ => false
  end.

(** [isinstance(e, httpx.NetworkError)] *)
Definition is_NetworkError (e : exn) : bool :=
  match e with
  | ConnectError | ReadError | WriteError | CloseError => true
  | _ => false
  end.

(** [isinstance(e, httpx.RequestError)] *)
Definition is_RequestError (e : exn) : bool :=
  is_TimeoutException e || is_NetworkError e ||
  match e with
  | ProxyError | UnsupportedProtocol | LocalProtocolError
  | RemoteProtocolError | DecodingError | TooManyRedirects => true
  | _ => false
  end.

(** [isinstance(e, Exception)] *)
Definition is_Exception (e : exn) : bool :=
  match e with
  | CancelledError => false
  | _ => true
  end.

(** What a call does: it returns a value or raises. *)
Inductive outcome (A : Type) : Type :=
| Returns (a : A)
| Raises (e : exn).
Arguments Returns {A} a.
Arguments Raises {A} e.

Definition obind {A B : Type} (m : outcome A) (k : A -> outcome B) : outcome B :=
  match m with
  | Returns a => k a
  | Raises e => Raises e
  end.

Declare Scope exn_scope.
Delimit Scope exn_scope with exn.
Notation "x <- m ;; k" := (obind m (fun x => k))
  (at level 100, m at next level, right associativity) : exn_scope.
Notation "m ;;; k" := (obind m (fun _ => k))
  (at level 100, right associativity) : exn_scope.
Close Scope io_scope.
Local Open Scope exn_scope.

(** ** Operations on decoded JSON *)

Fixpoint dict_get (key : str) (d : list (str * json)) : option json :=
  match d with
  | [] => None
  | (k, v) :: rest => if str_eqb k key then Some v else dict_get key rest
  end.

(** [bool(v)] *)
Definition truthy (v : json) : bool :=
  match v with
  | JNull => false
  | JBool b => b
  | JInt n => negb (n =? 0)%Z
  | JFloat (S754_zero _) => false
  | JFloat _ => true
  | JStr s => match s with [] => false | _ => true end
  | JList l => match l with [] => false | _ => true end
  | JDict d => match d with [] => false | _ => true end
  end.

(** [v.get(key, default)] *)
Definition py_get_default (v : json) (key : str) (default : json) : outcome json :=
  match v with
  | JDict d =>
      Returns (match dict_get key d with Some x => x | None => default end)
  | _ => Raises AttributeError
  end.

(** [v.get(key)] *)
Definition py_get (v : json) (key : str) : outcome json :=
  py_get_default v key JNull.

(** [v[key]] for a [str] key *)
Definition py_item (v : json) (key : str) : outcome json :=
  match v with
  | JDict d =>
      match dict_get key d with
      | Some x => Returns x
      | None => Raises KeyError
      end
  | _ => Raises TypeError
  end.

(** [v[0]] *)
Definition py_item0 (v : json) : outcome json :=
  match v with
  | JList (x :: _) => Returns x
  | JList [] => Raises IndexError
  | JStr (c :: _) => Returns (JStr [c])
  | JStr [] => Raises IndexError
  | JDict _ => Raises KeyError
  | _ => Raises TypeError
  end.

(** [v.strip()] *)
Definition py_strip (v : json) : outcome str :=
  match v with
  | JStr s => Returns (strip s)
  | _ => Raises AttributeError
  end.

(** ** The gateway *)

(** The part of an [httpx.Response] the program looks at.  [body] is what
    [response.json()] decodes, [None] when the content is not JSON. *)
Record response : Type := mkResponse {
  status : Z;
  body : option json
}.

(** [response.raise_for_status()]: httpx raises for every status that is
    not a success (2xx). *)
Definition raise_for_status (r : response) : outcome unit :=
  if (200 <=? status r)%Z && (status r <=? 299)%Z then Returns tt
  else Raises (HTTPStatusError (status r)).

(** [response.json()] *)
Definition response_json (r : response) : outcome json :=
  match body r with
  | Some v => Returns v
  | None => Raises JSONDecodeError
  end.

(** The chat history sent to the endpoint. *)
Definition payload (user_message : json) : json :=
  JDict [ (py "contents", JList [
    JDict [ (py "role", JStr (py "user"));
            (py "parts", JList [ JDict [ (py "text",
               JStr (py "You are HealthAI, a helpful and responsible AI assistant.")) ] ]) ];
    JDict [ (py "role", JStr (py "model"));
            (py "parts", JList [ JDict [ (py "text",
               JStr (py "Understood. I am HealthAI. How can I help?")) ] ]) ];
    JDict [ (py "role", JStr (py "user"));
            (py "parts", JList [ JDict [ (py "text", user_message) ] ]) ] ]) ].

Section Gateway.

(** The key that the source embeds in the URL. *)
Variable api_key : str.

(** [await client.post(api_url, json=payload)] on a client with a
    timeout of 30 seconds: the answer of the network, which is a
    response, or an exception such as a timeout. *)
Variable client_post : str -> json -> outcome response.

Definition api_url : str :=
  py "https://generativelanguage.googleapis.com/v1beta/models/gemini-2.5-flash-preview-05-20:generateContent?key="
  ++ api_key.

(** The body of the [try] statement. *)
Definition generate_ai_response_try (user_message : json) : outcome json :=
  response <- client_post api_url (payload user_message) ;;
  raise_for_status response ;;;
  result <- response_json response ;;
  c1 <- py_get result (py "candidates") ;;
  if truthy c1 then
    c2 <- (x <- py_item result (py "candidates") ;;
           x <- py_item0 x ;;
           py_get x (py "content")) ;;
    if truthy c2 then
      c3 <- (x <- py_item result (py "candidates") ;;
             x <- py_item0 x ;;
             x <- py_item x (py "content") ;;
             py_get x (py "parts")) ;;
      if truthy c3 then
        x <- py_item result (py "candidates") ;;
        x <- py_item0 x ;;
        x <- py_item x (py "content") ;;
        x <- py_item x (py "parts") ;;
        x <- py_item0 x ;;
        py_item x (py "text")
      else Returns (JStr (py "I'm sorry, I couldn't generate a response at the moment."))
    else Returns (JStr (py "I'm sorry, I couldn't generate a response at the moment."))
  else Returns (JStr (py "I'm sorry, I couldn't generate a response at the moment.")).

(** The [try] statement with its two [except] clauses, in their order.
    The two [print] calls write to the standard output only. *)
Definition generate_ai_response (user_message : json) : outcome json :=
  match generate_ai_response_try user_message with
  | Returns v => Returns v
  | Raises e =>
      if is_RequestError e then
        Returns (JStr (py "Error: Could not connect to the AI service."))
      else if is_Exception e then
        Returns (JStr (py "An unexpected error occurred while generating the response."))
      else Raises e
  end.

End Gateway.

(** ** The route [/send_message] *)

(** What the handler reads from Flask: the session, and [request.json],
    which raises when the body is not JSON. *)
Record request : Type := mkRequest {
  session : list (str * json);
  request_json : outcome json
}.

(** A response of the handler: the JSON document and the status code. *)
Definition http_response : Type := (json * Z)%type.

(** The handler is a coroutine with one [await]: it finishes, or it awaits
    [generate_ai_response user_message] and resumes with what that call
    does. *)
Inductive coroutine : Type :=
| Finished (r : outcome http_response)
| Await (user_message : json) (resume : outcome json -> outcome http_response).

Definition send_message (req : request) : coroutine :=
  match dict_get (py "user") (session req) with
  | None => Finished (Returns (JDict [ (py "error", JStr (py "Not logged in")) ], 401%Z))
  | Some _ =>
      match (data <- request_json req ;;
             user_message <- py_get_default data (py "message") (JStr (py "")) ;;
             stripped <- py_strip user_message ;;
             Returns (user_message, stripped)) with
      | Raises e => Finished (Raises e)
      | Returns (user_message, []) =>
          Finished (Returns (JDict [ (py "error", JStr (py "Message cannot be empty")) ], 400%Z))
      | Returns (user_message, _ :: _) =>
          Await user_message
            (fun r => ai_reply <- r ;;
                      Returns (JDict [ (py "reply", ai_reply) ], 200%Z))
      end
  end.

(** The calls of the gateway that a run of the handler makes. *)
Definition gateway_calls (c : coroutine) : list json :=
  match c with
  | Finished _ => []
  | Await user_message _ => [user_message]
  end.

(** The handler run to its end against a network. *)
Definition serve_send_message (api_key : str)
    (client_post : str -> json -> outcome response) (req : request)
    : outcome http_response :=
  match send_message req with
  | Finished r => r
  | Await user_message resume =>
      resume (generate_ai_response api_key client_post user_message)
  end.

(** A message that is absent, empty or made of white space only, in a
    body that is a JSON object. *)
Definition blank_message (data : json) : Prop :=
  exists d, data = JDict d /\
    (dict_get (py "message") d = None \/
     exists s, dict_get (py "message") d = Some (JStr s) /\
               forallb isspace s = true).

(** The disk once [init_user_db] has run on it. *)
Definition initialised (d : disk) : disk := snd (init_user_db d).

(** The record that [register_user] appends. *)
Definition new_user (generate_password_hash : str -> str -> str)
    (salt now email password first_name last_name : str) : user :=
  {| u_email := email;
     u_password := generate_password_hash salt password;
     u_first_name := first_name;
     u_last_name := last_name;
     u_created_at := now |}.

(** ** Invariants of the store *)

(** A call whose strings are all text, as the fields of a form are. *)
Definition text_call (c : call) : bool :=
  match c with
  | Register salt now email password first_name last_name =>
      is_text email && is_text password &&
      is_text first_name && is_text last_name
  | Verify email password => is_text email && is_text password
  end.

(** The dumps so far are initial segments of the stored list: records are
    only ever appended. *)
Definition dumps_are_prefixes (d : disk) : Prop :=
  forall l, In l (dumped d) -> exists rest, stored_users d = l ++ rest.

(** A record holds a hash of a password. *)
Definition holds_hash_of (generate_password_hash : str -> str -> str)
    (u : user) (password : str) : Prop :=
  exists salt, u_password u = generate_password_hash salt password.

(** A record holds a hash of a password, and not the password itself. *)
Definition hashed_not_plain (generate_password_hash : str -> str -> str)
    (u : user) (password : str) : Prop :=
  holds_hash_of generate_password_hash u password /\ u_password u <> password.

(** ** A concrete run *)

(** The record and the disk after [register("a@x.com","pw","A","B")] on a
    machine without [users.json], with the stand-in hashing. *)
Definition demo_user : user :=
  new_user demo_generate_password_hash (py "s4lt") (py "2024-05-01T10:00:00")
    (py "a@x.com") (py "pw") (py "A") (py "B").

Definition demo_disk : disk :=
  snd (register_user demo_generate_password_hash (py "s4lt")
         (py "2024-05-01T10:00:00") (py "a@x.com") (py "pw") (py "A") (py "B")
         no_file).

(** A result of [verify_user] that carries profile fields only: no
    [password] key, and the stored hash nowhere among its strings. *)
Definition hides_hash (v : pyval) (pwhash : str) : Prop :=
  ~ In (py "password") (pyval_keys v) /\ ~ In pwhash (pyval_strings v).

(** An endpoint that answers every request with status 500. *)
Definition server_error (_ : str) (_ : json) : outcome response :=
  Returns {| status := 500; body := None |}.

(** An endpoint that never answers in time. *)
Definition timed_out (_ : str) (_ : json) : outcome response :=
  Raises ReadTimeout.

(** The failures of the remote call at the network level: the call raised
    a timeout or a connection error, or the response has a status that is
    not 2xx. *)
Definition network_failure (r : outcome response) : Prop :=
  (exists e, r = Raises e /\
             (is_TimeoutException e = true \/ is_NetworkError e = true)) \/
  (exists resp, r = Returns resp /\
                ((status resp <? 200)%Z = true \/ (299 <? status resp)%Z = true)).

(** ** The session and the other routes *)

(** [d[key] = v] on a [dict]: the value of an existing key is replaced in
    place, a new key goes to the end. *)
Fixpoint dict_set (key : str) (v : json) (d : list (str * json))
    : list (str * json) :=
  match d with
  | [] => [(key, v)]
  | (k, x) :: rest =>
      if str_eqb k key then (k, v) :: rest
      else (k, x) :: dict_set key v rest
  end.

(** [d.pop(key, None)], for the [dict] it leaves. *)
Fixpoint dict_pop (key : str) (d : list (str * json)) : list (str * json) :=
  match d with
  | [] => []
  | (k, x) :: rest =>
      if str_eqb k key then dict_pop key rest
      else (k, x) :: dict_pop key rest
  end.

(** [key in d] *)
Definition dict_mem (key : str) (d : list (str * json)) : bool :=
  match dict_get key d with
  | Some _ => true
  | None => false
  end.

(** The keys of a [dict], each of them once. *)
Definition distinct_keys (d : list (str * json)) : Prop :=
  NoDup (map fst d).

(** What a page route returns: a rendered template with its context, or
    a redirect to [url_for(endpoint)]. *)
Inductive view : Type :=
| Render (template : str) (context : list (str * json))
| Redirect (endpoint : str).

Inductive http_method : Type := GET | POST.

(** The [dict] that [login] and [signup] put under [session['user']]. *)
Definition session_user (email first_name last_name : str) : json :=
  JDict [ (py "email", JStr email);
          (py "first_name", JStr first_name);
          (py "last_name", JStr last_name) ].

(** [result[key]] on what [verify_user] returned. *)
Fixpoint items_get (key : str) (items : list (str * str)) : option str :=
  match items with
  | [] => None
  | (k, v) :: rest => if str_eqb k key then Some v else items_get key rest
  end.

Definition pyval_item (result : pyval) (key : str) : outcome str :=
  match result with
  | PUser u =>
      match items_get key (user_items u) with
      | Some v => Returns v
      | None => Raises KeyError
      end
  | PStr _ => Raises TypeError
  end.

(** A returned value as the template receives it. *)
Definition pyval_json (v : pyval) : json :=
  match v with
  | PStr s => JStr s
  | PUser u => JDict (map (fun kv => (fst kv, JStr (snd kv))) (user_items u))
  end.

Definition home : view := Render (py "index.html") [].

Definition about : view := Render (py "about.html") [].

Definition services : view := Render (py "services.html") [].

Definition chat (session : list (str * json)) : view :=
  if negb (dict_mem (py "user") session) then Redirect (py "login")
  else Render (py "chat.html") [].

Definition dashboard (session : list (str * json)) : view :=
  if negb (dict_mem (py "user") session) then Redirect (py "login")
  else Render (py "dashboard.html") [].

(** [logout]: the session it leaves, and the redirect. *)
Definition logout (session : list (str * json)) : list (str * json) * view :=
  (dict_pop (py "user") session, Redirect (py "home")).

Section Routes.

Variable generate_password_hash : str -> str -> str.
Variable check_password_hash : str -> str -> bool.

(** [login], for a request whose form has the two fields: [email] and
    [password] are what [request.form.get] returns for them (the form is
    read on a POST only).  The result is the session after the call and
    what the handler returns or raises. *)
Definition login (method : http_method) (email password : str)
    (session : list (str * json))
    : io (list (str * json) * outcome view) :=
  if dict_mem (py "user") session
  then ret (session, Returns (Redirect (py "dashboard")))
  else
    match method with
    | POST =>
        bind (verify_user check_password_hash email password)
          (fun r =>
             let (success, result) := r in
             if success then
               match (first_name <- pyval_item result (py "first_name") ;;
                      last_name <- pyval_item result (py "last_name") ;;
                      Returns (session_user email first_name last_name)) with
               | Returns user =>
                   ret (dict_set (py "user") user session,
                        Returns (Redirect (py "dashboard")))
               | Raises e => ret (session, Raises e)
               end
             else
               ret (session,
                    Returns (Render (py "login.html")
                               [ (py "error", pyval_json result) ])))
    | GET =>
        ret (session,
             Returns (Render (py "login.html") [ (py "error", JNull) ]))
    end.

(** [signup], for a request whose form has the four fields; [salt] and
    [now] are what [register_user] draws. *)
Definition signup (salt now : str)
    (email password first_name last_name : str)
    (session : list (str * json)) : io (list (str * json) * view) :=
  bind (register_user generate_password_hash salt now
          email password first_name last_name)
    (fun r =>
       let (success, message) := r in
       if success then
         ret (dict_set (py "user") (session_user email first_name last_name)
                session,
              Redirect (py "dashboard"))
       else
         ret (session,
              Render (py "login.html")
                [ (py "signup_error", JStr message);
                  (py "show_signup", JBool true) ])).

End Routes.

(** [feedback]: [feedback_json] is the file [feedback.json], one entry
    for each of its lines, an absent file being the empty list; [now] is
    [datetime.now().isoformat()].  The result is the file after the call
    and what the handler returns or raises. *)
Definition feedback (now : str) (req : request) (feedback_json : list json)
    : list json * outcome http_response :=
  match dict_get (py "user") (session req) with
  | None =>
      (feedback_json,
       Returns (JDict [ (py "error", JStr (py "Not logged in")) ], 401%Z))
  | Some user =>
      match (data <- request_json req ;;
             sentiment <- py_get data (py "sentiment") ;;
             concern <- py_get data (py "concern") ;;
             email <- py_item user (py "email") ;;
             Returns (JDict [ (py "user", email);
                              (py "sentiment", sentiment);
                              (py "concern", concern);
                              (py "timestamp", JStr now) ])) with
      | Raises e => (feedback_json, Raises e)
      | Returns feedback_entry =>
          (feedback_json ++ [feedback_entry],
           Returns (JDict [ (py "status", JStr (py "Feedback received")) ],
                    200%Z))
      end
  end.

(** ** Shapes of an answer of the endpoint *)

(** [isinstance(v, dict)] and [isinstance(v, str)] *)
Definition is_dict (v : json) : bool :=
  match v with
  | JDict _ => true
  | _ => false
  end.

Definition is_str (v : json) : bool :=
  match v with
  | JStr _ => true
  | _ => false
  end.

(** The three fixed replies of [generate_ai_response]. *)
Definition connection_fallback : json :=
  JStr (py "Error: Could not connect to the AI service.").

Definition unexpected_fallback : json :=
  JStr (py "An unexpected error occurred while generating the response.").

Definition no_response_fallback : json :=
  JStr (py "I'm sorry, I couldn't generate a response at the moment.").

(** A status of the 2xx class. *)
Definition is_success (r : response) : bool :=
  (200 <=? status r)%Z && (status r <=? 299)%Z.

(** An exception that an [except Exception] clause catches is all a
    computation raises. *)
Definition raises_exceptions_only {A : Type} (m : outcome A) : Prop :=
  forall e, m = Raises e -> is_Exception e = true.

(** The decoded body has a text at
    [['candidates'][0]['content']['parts'][0]['text']]. *)
Definition has_text (result : json) (text : json) : Prop :=
  exists d c cs k p ps,
    result = JDict d /\
    dict_get (py "candidates") d = Some (JList (JDict c :: cs)) /\
    dict_get (py "content") c = Some (JDict k) /\
    dict_get (py "parts") k = Some (JList (JDict p :: ps)) /\
    dict_get (py "text") p = Some text.

(** The value of a key is missing or false. *)
Definition falsy_at (key : str) (d : list (str * json)) : Prop :=
  match dict_get key d with
  | Some v => truthy v = false
  | None => True
  end.

(** The decoded body is an object in which the walk to the parts stops at
    a missing or false value: at [candidates], at the [content] of the
    first candidate, or at the [parts] of that content. *)
Definition lacks_parts (result : json) : Prop :=
  exists d, result = JDict d /\
    (falsy_at (py "candidates") d \/
     exists c cs,
       dict_get (py "candidates") d = Some (JList (JDict c :: cs)) /\
       (falsy_at (py "content") c \/
        exists k, dict_get (py "content") c = Some (JDict k) /\
                  falsy_at (py "parts") k)).

(** The number of registrations of a run that succeed. *)
Definition registrations (generate_password_hash : str -> str -> str)
    (check_password_hash : str -> str -> bool) (cs : list call) (d : disk)
    : nat :=
  length (registered_passwords generate_password_hash check_password_hash cs d).

(** * Properties *)

(** ** Strings *)

Lemma str_eqb_eq (a b : str) : str_eqb a b = true <-> a = b.
Proof.
  revert b; induction a as [|x a IH]; intros [|y b]; simpl;
    try (split; [discriminate | congruence]); [tauto|].
  rewrite andb_true_iff, N.eqb_eq, IH.
  split; [intros [-> ->]; reflexivity | intros [= -> ->]; auto].
Qed.

Lemma str_eqb_refl (a : str) : str_eqb a a = true.
Proof. apply str_eqb_eq; reflexivity. Qed.

Lemma str_eqb_neq (a b : str) : str_eqb a b = false <-> a <> b.
Proof.
  rewrite <- str_eqb_eq. destruct (str_eqb a b); split; congruence.
Qed.

Lemma lstrip_blank (s : str) : forallb isspace s = true -> lstrip s = [].
Proof.
  induction s as [|c s IH]; simpl; [reflexivity|].
  rewrite andb_true_iff; intros [-> H]; auto.
Qed.

Lemma lstrip_nil_blank (s : str) : lstrip s = [] -> forallb isspace s = true.
Proof.
  induction s as [|c s IH]; simpl; [reflexivity|].
  destruct (isspace c); [auto | discriminate].
Qed.

Lemma lstrip_suffix (s : str) : exists p, s = p ++ lstrip s /\ forallb isspace p = true.
Proof.
  induction s as [|c s (p & Hp & Hb)]; simpl.
  - exists []; auto.
  - destruct (isspace c) eqn:E.
    + exists (c :: p); simpl; rewrite E, Hb; split; [congruence|reflexivity].
    + exists []; auto.
Qed.

(** [strip] returns the empty string exactly on the strings made of white
    space only (the empty one among them). *)
Lemma strip_nil_iff (s : str) : strip s = [] <-> forallb isspace s = true.
Proof.
  unfold strip, rstrip. split.
  - intros H.
    assert (Hr : lstrip (rev (lstrip s)) = []).
    { rewrite <- (rev_involutive (lstrip _)), H; reflexivity. }
    apply lstrip_nil_blank in Hr.
    destruct (lstrip_suffix s) as (p & Hp & Hb).
    rewrite Hp, forallb_app, Hb; simpl.
    rewrite forallb_forall in *; intros c Hc; apply Hr, in_rev.
    rewrite rev_involutive; exact Hc.
  - intros H. rewrite (lstrip_blank s H); reflexivity.
Qed.

(** A text comes back from the file as it was written. *)
Lemma json_reload_text (s : str) : is_text s = true -> json_reload s = s.
Proof.
  induction s as [|c rest IH]; [reflexivity|].
  cbn [is_text forallb]. fold (is_text rest).
  rewrite !andb_true_iff, negb_true_iff. intros [[Hc _] Hrest].
  destruct rest as [|l rest']; [reflexivity|].
  cbn [json_reload].
  assert (is_high_surrogate c = false) as ->.
  { unfold is_surrogate, is_high_surrogate in *.
    apply andb_false_iff in Hc. apply andb_false_iff.
    destruct Hc as [Hc|Hc]; [left; exact Hc | right].
    apply N.leb_gt in Hc. apply N.leb_gt. lia. }
  cbn [andb]. f_equal. exact (IH Hrest).
Qed.

(** A surrogate pair does not: the two code points come back as one. *)
Example json_reload_pair :
  json_reload ([55357; 56832]%N ++ py "@x.com") = 128512%N :: py "@x.com".
Proof. reflexivity. Qed.

(** ** The database helpers *)

Lemma init_user_db_eq (d : disk) :
  init_user_db d =
  (tt, match users_json d with
       | Some _ => d
       | None => {| users_json := Some []; dumped := dumped d ++ [[]] |}
       end).
Proof.
  unfold init_user_db, bind, path_exists, json_dump, ret.
  destruct (users_json d); reflexivity.
Qed.

Lemma initialised_existing (d : disk) (users : list user) :
  users_json d = Some users -> initialised d = d.
Proof. unfold initialised; rewrite init_user_db_eq; intros ->; reflexivity. Qed.

Lemma initialised_users_json (d : disk) :
  users_json (initialised d) = Some (stored_users d).
Proof.
  unfold initialised, stored_users; rewrite init_user_db_eq.
  destruct (users_json d) eqn:E; simpl; auto.
Qed.

Lemma stored_users_initialised (d : disk) :
  stored_users (initialised d) = stored_users d.
Proof.
  unfold stored_users at 1; rewrite initialised_users_json; reflexivity.
Qed.

Lemma stored_users_Some (users : list user) (h : list (list user)) :
  stored_users {| users_json := Some users; dumped := h |} = users.
Proof. reflexivity. Qed.

Lemma initialised_idem (d : disk) : initialised (initialised d) = initialised d.
Proof. apply (initialised_existing _ _ (initialised_users_json d)). Qed.

Lemma get_users_eq (d : disk) :
  get_users d = (stored_users d, initialised d).
Proof.
  unfold get_users, bind, json_load.
  pose proof (initialised_users_json d) as H; unfold initialised in *.
  destruct (init_user_db d) as [[] d']; simpl in *; rewrite H; reflexivity.
Qed.

Lemma find_user_eq (email : str) (d : disk) :
  find_user email d = (find_user_loop email (stored_users d), initialised d).
Proof. unfold find_user, bind; rewrite get_users_eq; reflexivity. Qed.

Lemma find_user_loop_None (email : str) (users : list user) :
  find_user_loop email users = None <->
  forall u, In u users -> u_email u <> email.
Proof.
  induction users as [|v users IH]; simpl.
  - split; [intros _ u [] | reflexivity].
  - destruct (str_eqb (u_email v) email) eqn:E.
    + apply str_eqb_eq in E. split; [discriminate|].
      intros H; exfalso; apply (H v); auto.
    + apply str_eqb_neq in E. rewrite IH. split.
      * intros H u [<-|Hu]; auto.
      * intros H u Hu; apply H; auto.
Qed.

(** [find_user_loop] returns the first record with the email. *)
Lemma find_user_loop_Some (email : str) (users : list user) (u : user) :
  find_user_loop email users = Some u <->
  exists before after,
    users = before ++ u :: after /\ u_email u = email /\
    forall v, In v before -> u_email v <> email.
Proof.
  induction users as [|v users IH]; simpl.
  - split; [discriminate | intros ([|? ?] & ? & ? & _); discriminate].
  - destruct (str_eqb (u_email v) email) eqn:E.
    + apply str_eqb_eq in E. split.
      * intros [= ->]. exists [], users; simpl; intuition.
      * intros ([|w before] & after & Hl & He & Hb); simpl in Hl.
        -- congruence.
        -- injection Hl as <- _. exfalso; apply (Hb v); simpl; auto.
    + apply str_eqb_neq in E. rewrite IH. split.
      * intros (before & after & -> & He & Hb).
        exists (v :: before), after; simpl; repeat split; auto.
        intros w [<-|Hw]; auto.
      * intros ([|w before] & after & Hl & He & Hb); simpl in Hl.
        -- congruence.
        -- injection Hl as <- ->. exists before, after; repeat split; auto.
           intros x Hx; apply Hb; simpl; auto.
Qed.

Lemma find_user_loop_In (email : str) (users : list user) (u : user) :
  find_user_loop email users = Some u -> In u users /\ u_email u = email.
Proof.
  intros (before & after & -> & He & _)%find_user_loop_Some.
  split; [apply in_elt | exact He].
Qed.

Lemma find_user_loop_app_new (email : str) (users : list user) (u : user) :
  find_user_loop email users = None -> u_email u = email ->
  find_user_loop email (users ++ [u]) = Some u.
Proof.
  intros Hn He; induction users as [|v users IH]; simpl in *.
  - rewrite He, str_eqb_refl; reflexivity.
  - destruct (str_eqb (u_email v) email); [discriminate | auto].
Qed.

(** ** [register_user] and [verify_user], unfolded *)

Section AuthFacts.

Variable generate_password_hash : str -> str -> str.
Variable check_password_hash : str -> str -> bool.

Lemma register_user_eq (salt now email password first_name last_name : str)
    (d : disk) :
  register_user generate_password_hash salt now
    email password first_name last_name d =
  match find_user_loop email (stored_users d) with
  | Some _ => ((false, py "Email already registered"), initialised d)
  | None =>
      let users := stored_users d ++
        [new_user generate_password_hash salt now
           email password first_name last_name] in
      ((true, py ""),
       {| users_json := Some users;
          dumped := dumped (initialised d) ++ [users] |})
  end.
Proof.
  unfold register_user, bind. rewrite find_user_eq.
  destruct (find_user_loop email (stored_users d)); simpl; [reflexivity|].
  rewrite get_users_eq, initialised_idem, stored_users_initialised.
  reflexivity.
Qed.

Lemma verify_user_eq (email password : str) (d : disk) :
  verify_user check_password_hash email password d =
  (match find_user_loop email (stored_users d) with
   | None => (false, PStr (py "User not found"))
   | Some user =>
       if check_password_hash (u_password user) password
       then (true, PUser user)
       else (false, PStr (py "Incorrect password"))
   end, initialised d).
Proof.
  unfold verify_user, bind. rewrite find_user_eq.
  destruct (find_user_loop email (stored_users d)) as [u|]; [|reflexivity].
  destruct (check_password_hash (u_password u) password); reflexivity.
Qed.

End AuthFacts.

Lemma demo_check_generate (salt password : str) :
  demo_check_password_hash (demo_generate_password_hash salt password) password
  = true.
Proof. simpl. apply N.eqb_refl. Qed.

Lemma demo_generate_not_plain (salt password : str) :
  demo_generate_password_hash salt password <> password.
Proof.
  unfold demo_generate_password_hash, demo_digest; intros H.
  apply (f_equal checksum) in H.
  change (checksum (?c :: ?s)) with (c + checksum s)%N in H.
  change (py "$" ++ salt) with (36%N :: salt) in H.
  change (checksum (?c :: ?s)) with (c + checksum s)%N in H.
  lia.
Qed.

Lemma demo_disk_eq :
  demo_disk = {| users_json := Some [demo_user]; dumped := [[]; [demo_user]] |}.
Proof. reflexivity. Qed.

(** ** Claims about [verify_user] *)

(** C1, as stated, fails: after [register("a@x.com","pw","A","B")] the call
    [verify("a@x.com","pw")] succeeds and returns the stored record itself,
    which has the key [password] with the stored hash as its value. *)
Lemma verify_user_success_returns_hash :
  stored_users demo_disk = [demo_user] /\
  fst (verify_user demo_check_password_hash (py "a@x.com") (py "pw") demo_disk)
  = (true, PUser demo_user) /\
  In (py "password") (pyval_keys (PUser demo_user)) /\
  In (u_password demo_user) (pyval_strings (PUser demo_user)) /\
  ~ hides_hash (PUser demo_user) (u_password demo_user).
Proof.
  assert (Hkey : In (py "password") (pyval_keys (PUser demo_user)))
    by (simpl; auto).
  repeat split; try reflexivity; [exact Hkey | simpl; auto |].
  intros [H _]; exact (H Hkey).
Qed.

(** C1, amended: when a user with the email is stored, a call of
    [verify_user] whose hash check succeeds returns [True] with the whole
    stored record of that user, the [password] item with the hash
    included; a call whose hash check fails returns [False] with the fixed
    message ["Incorrect password"], whatever the stored hash is. *)
Theorem verify_user_result
    (check_password_hash : str -> str -> bool)
    (email password : str) (d : disk) (user : user) :
  find_user_loop email (stored_users d) = Some user ->
  (check_password_hash (u_password user) password = true ->
   fst (verify_user check_password_hash email password d) = (true, PUser user) /\
   In user (stored_users d) /\
   In (py "password", u_password user) (user_items user)) /\
  (check_password_hash (u_password user) password = false ->
   fst (verify_user check_password_hash email password d)
   = (false, PStr (py "Incorrect password"))).
Proof.
  intros Hfind. rewrite verify_user_eq, Hfind. simpl.
  split; intros ->; [|reflexivity].
  split; [reflexivity|]. split.
  - apply (find_user_loop_In _ _ _ Hfind).
  - simpl; auto.
Qed.

Lemma verify_user_result_witness :
  (fst (verify_user demo_check_password_hash (py "a@x.com") (py "pw") demo_disk)
   = (true, PUser demo_user) /\
   In demo_user (stored_users demo_disk) /\
   In (py "password", u_password demo_user) (user_items demo_user)) /\
  fst (verify_user demo_check_password_hash (py "a@x.com") (py "wrong") demo_disk)
  = (false, PStr (py "Incorrect password")).
Proof.
  split.
  - apply (verify_user_result demo_check_password_hash
             (py "a@x.com") (py "pw") demo_disk demo_user); reflexivity.
  - apply (verify_user_result demo_check_password_hash
             (py "a@x.com") (py "wrong") demo_disk demo_user); reflexivity.
Defined.

(** C5: [verify_user] fails with ["User not found"] exactly when no stored
    user has the email, and with ["Incorrect password"] exactly when a user
    with the email is stored and the hash check of the given password
    against the hash of the first such record fails. *)
Theorem verify_user_failures
    (check_password_hash : str -> str -> bool)
    (email password : str) (d : disk) :
  (fst (verify_user check_password_hash email password d)
   = (false, PStr (py "User not found")) <->
   forall u, In u (stored_users d) -> u_email u <> email) /\
  (fst (verify_user check_password_hash email password d)
   = (false, PStr (py "Incorrect password")) <->
   exists before u after,
     stored_users d = before ++ u :: after /\
     (forall v, In v before -> u_email v <> email) /\
     u_email u = email /\
     check_password_hash (u_password u) password = false).
Proof.
  rewrite verify_user_eq; simpl.
  destruct (find_user_loop email (stored_users d)) as [u|] eqn:Hfind.
  - pose proof Hfind as (before & after & Hl & He & Hb)%find_user_loop_Some.
    split.
    + split.
      * destruct (check_password_hash (u_password u) password); discriminate.
      * intros H%find_user_loop_None; congruence.
    + split.
      * intros H. exists before, u, after. repeat split; auto.
        destruct (check_password_hash (u_password u) password);
          [discriminate | reflexivity].
      * intros (before' & u' & after' & Hl' & Hb' & He' & Hc).
        assert (Hfind' : find_user_loop email (stored_users d) = Some u').
        { apply find_user_loop_Some. exists before', after'; auto. }
        assert (u' = u) by congruence; subst u'.
        rewrite Hc; reflexivity.
  - split.
    + split; [intros _; apply find_user_loop_None; exact Hfind | reflexivity].
    + split; [discriminate|].
      intros (before & u & after & Hl & Hb & He & _).
      assert (find_user_loop email (stored_users d) = Some u).
      { apply find_user_loop_Some. exists before, after; auto. }
      congruence.
Qed.

(** ** Claims about [register_user] *)

(** C4: [register_user] fails with ["Email already registered"] if and only
    if some stored user has exactly the given email; with a password that
    is text it succeeds otherwise; and when email and password are text, a
    second registration of the email fails, whatever the first one did
    and whatever the other arguments are. *)
Theorem register_user_duplicate_iff
    (generate_password_hash : str -> str -> str)
    (salt now email password first_name last_name : str) (d : disk) :
  (fst (register_user generate_password_hash salt now
          email password first_name last_name d)
   = (false, py "Email already registered") <->
   exists u, In u (stored_users d) /\ u_email u = email) /\
  (is_text password = true ->
   (fst (register_user generate_password_hash salt now
           email password first_name last_name d)
    = (true, py "") <->
    ~ exists u, In u (stored_users d) /\ u_email u = email)) /\
  (is_text email = true -> is_text password = true ->
   forall salt' now' password' first_name' last_name',
     fst (register_user generate_password_hash salt' now'
            email password' first_name' last_name'
            (snd (register_user generate_password_hash salt now
                    email password first_name last_name d)))
     = (false, py "Email already registered")).
Proof.
  rewrite register_user_eq.
  destruct (find_user_loop email (stored_users d)) as [u|] eqn:Hfind; simpl.
  - destruct (find_user_loop_In _ _ _ Hfind) as [Hin He].
    split; [split; [exists u; auto | reflexivity]|].
    split; [intros _; split;
              [discriminate | intros H; exfalso; apply H; exists u; auto]|].
    intros _ _ **. rewrite register_user_eq, stored_users_initialised, Hfind.
    reflexivity.
  - pose proof (proj1 (find_user_loop_None _ _) Hfind) as Hnone.
    split; [split; [discriminate | intros (u & Hin & He); destruct (Hnone u Hin He)]|].
    split; [intros _; split;
              [intros _ (u & Hin & He); apply (Hnone u Hin He) | reflexivity]|].
    intros _ _ **. rewrite register_user_eq. unfold stored_users at 1; simpl.
    rewrite find_user_loop_app_new; auto.
Qed.

Lemma register_user_duplicate_iff_witness :
  (fst (register_user demo_generate_password_hash (py "s4lt")
          (py "2024-05-01T10:00:00") (py "a@x.com") (py "pw") (py "A") (py "B")
          no_file)
   = (true, py "") <->
   ~ exists u, In u (stored_users no_file) /\ u_email u = py "a@x.com") /\
  fst (register_user demo_generate_password_hash (py "x") (py "t2")
         (py "a@x.com") (py "other") (py "C") (py "D") demo_disk)
  = (false, py "Email already registered").
Proof.
  pose proof (register_user_duplicate_iff demo_generate_password_hash
                (py "s4lt") (py "2024-05-01T10:00:00")
                (py "a@x.com") (py "pw") (py "A") (py "B") no_file)
    as (_ & Hfree & Htwice).
  split.
  - apply Hfree. reflexivity.
  - apply (Htwice eq_refl eq_refl (py "x") (py "t2") (py "other") (py "C") (py "D")).
Defined.

(** Emails are compared code point by code point: after ["a@x.com"] has
    been registered, ["A@x.com"] is still free. *)
Example register_user_case_sensitive :
  fst (register_user demo_generate_password_hash (py "s") (py "t")
         (py "A@x.com") (py "pw") (py "A") (py "B") demo_disk)
  = (true, py "").
Proof. reflexivity. Qed.

(** C8: a successful [register_user] leaves in [users.json] the records
    that were stored before, in their order and unchanged, followed by
    the one new record; that list is what the call dumps. *)
Theorem register_user_appends
    (generate_password_hash : str -> str -> str)
    (salt now email password first_name last_name : str) (d : disk) :
  fst (register_user generate_password_hash salt now
         email password first_name last_name d) = (true, py "") ->
  let d' := snd (register_user generate_password_hash salt now
                   email password first_name last_name d) in
  let added := {| u_email := email;
                  u_password := generate_password_hash salt password;
                  u_first_name := first_name;
                  u_last_name := last_name;
                  u_created_at := now |} in
  users_json d' = Some (stored_users d ++ [added]) /\
  stored_users d' = stored_users d ++ [added] /\
  (forall i u, nth_error (stored_users d) i = Some u ->
               nth_error (stored_users d') i = Some u) /\
  length (stored_users d') = S (length (stored_users d)) /\
  last (dumped d') [] = stored_users d ++ [added].
Proof.
  rewrite register_user_eq.
  destruct (find_user_loop email (stored_users d)); simpl; [discriminate|].
  intros _. cbv zeta. rewrite !stored_users_Some. unfold new_user.
  repeat split.
  - intros i u Hi. rewrite nth_error_app1; [exact Hi|].
    apply nth_error_Some; congruence.
  - rewrite length_app; simpl; lia.
  - apply last_last.
Qed.

Lemma register_user_appends_witness :
  let d' := snd (register_user demo_generate_password_hash (py "y") (py "t3")
                   (py "b@x.com") (py "pw2") (py "E") (py "F") demo_disk) in
  let added := {| u_email := py "b@x.com";
                  u_password := demo_generate_password_hash (py "y") (py "pw2");
                  u_first_name := py "E";
                  u_last_name := py "F";
                  u_created_at := py "t3" |} in
  users_json d' = Some (stored_users demo_disk ++ [added]) /\
  stored_users d' = [demo_user; added] /\
  nth_error (stored_users d') 0 = Some demo_user /\
  length (stored_users d') = 2 /\
  last (dumped d') [] = [demo_user; added].
Proof.
  pose proof (register_user_appends demo_generate_password_hash (py "y")
                (py "t3") (py "b@x.com") (py "pw2") (py "E") (py "F")
                demo_disk eq_refl) as (Hjson & Hstored & Hframe & Hlen & Hlast).
  cbn zeta.
  split; [exact Hjson|]. split; [exact Hstored|].
  split; [apply (Hframe 0%nat demo_user); reflexivity|].
  split; [exact Hlen | exact Hlast].
Defined.

(** C10: [register_user] looks at nothing but the stored emails: for
    strings that are text, whenever no stored user has the given email it
    succeeds and stores the four strings as they are, under the hash of
    the password; so the empty email, password and names are registered
    on a store without the empty email. *)
Theorem register_user_no_validation
    (generate_password_hash : str -> str -> str)
    (salt now email password first_name last_name : str) (d : disk) :
  is_text email = true -> is_text password = true ->
  is_text first_name = true -> is_text last_name = true ->
  is_text (generate_password_hash salt password) = true ->
  (forall u, In u (stored_users d) -> u_email u <> email) ->
  fst (register_user generate_password_hash salt now
         email password first_name last_name d) = (true, py "") /\
  exists u,
    stored_users (snd (register_user generate_password_hash salt now
                         email password first_name last_name d))
    = stored_users d ++ [u] /\
    u_email u = email /\ u_first_name u = first_name /\
    u_last_name u = last_name /\
    u_password u = generate_password_hash salt password.
Proof.
  intros _ _ _ _ _ Hfree%find_user_loop_None.
  rewrite register_user_eq, Hfree; simpl.
  split; [reflexivity|]. eexists; split; [reflexivity|]. simpl; auto.
Qed.

Lemma register_user_no_validation_witness :
  fst (register_user demo_generate_password_hash (py "s") (py "t")
         (py "") (py "") (py "") (py "") demo_disk) = (true, py "") /\
  exists u,
    stored_users (snd (register_user demo_generate_password_hash (py "s") (py "t")
                         (py "") (py "") (py "") (py "") demo_disk))
    = stored_users demo_disk ++ [u] /\
    u_email u = py "" /\ u_first_name u = py "" /\ u_last_name u = py "" /\
    u_password u = demo_generate_password_hash (py "s") (py "").
Proof.
  apply (register_user_no_validation demo_generate_password_hash (py "s") (py "t")
           (py "") (py "") (py "") (py "") demo_disk); try reflexivity.
  intros u [<-|[]]; discriminate.
Defined.

(** C3: when [register_user] succeeds on strings that are text,
    [verify_user] with the same email and password on the resulting store
    succeeds and returns a record with the registered first and last name,
    provided the hash check accepts the password a hash was generated
    from. *)
Theorem register_then_verify
    (generate_password_hash : str -> str -> str)
    (check_password_hash : str -> str -> bool)
    (salt now email password first_name last_name : str) (d : disk) :
  (forall s p, check_password_hash (generate_password_hash s p) p = true) ->
  is_text email = true -> is_text password = true ->
  is_text first_name = true -> is_text last_name = true ->
  is_text (generate_password_hash salt password) = true ->
  fst (register_user generate_password_hash salt now
         email password first_name last_name d) = (true, py "") ->
  exists u,
    fst (verify_user check_password_hash email password
           (snd (register_user generate_password_hash salt now
                   email password first_name last_name d)))
    = (true, PUser u) /\
    u_email u = email /\ u_first_name u = first_name /\
    u_last_name u = last_name.
Proof.
  intros Hcheck _ _ _ _ _. rewrite register_user_eq.
  destruct (find_user_loop email (stored_users d)) eqn:Hfind; simpl;
    [discriminate|]. intros _.
  rewrite verify_user_eq, stored_users_Some.
  rewrite (find_user_loop_app_new email _
             (new_user generate_password_hash salt now
                email password first_name last_name) Hfind eq_refl).
  unfold new_user at 1; simpl. rewrite Hcheck.
  eexists; split; [reflexivity|]. simpl; auto.
Qed.

Lemma register_then_verify_witness :
  exists u,
    fst (verify_user demo_check_password_hash (py "a@x.com") (py "pw") demo_disk)
    = (true, PUser u) /\
    u_email u = py "a@x.com" /\ u_first_name u = py "A" /\
    u_last_name u = py "B".
Proof.
  apply (register_then_verify demo_generate_password_hash
           demo_check_password_hash (py "s4lt") (py "2024-05-01T10:00:00")
           (py "a@x.com") (py "pw") (py "A") (py "B") no_file);
    try reflexivity.
  exact demo_check_generate.
Defined.

(** ** Writes *)

(** C9, as stated, fails for [verify_user]: on a machine without
    [users.json] the call writes the file, with an empty list in it. *)
Lemma verify_user_creates_file :
  snd (verify_user demo_check_password_hash (py "a@x.com") (py "pw") no_file)
  = {| users_json := Some []; dumped := [[]] |} /\
  snd (verify_user demo_check_password_hash (py "a@x.com") (py "pw") no_file)
  <> no_file.
Proof. split; [reflexivity | discriminate]. Qed.

(** C9, amended: a [register_user] that fails with ["Email already
    registered"] leaves the disk as it was, with no dump; [verify_user]
    never changes the stored records, and leaves the disk as it was when
    [users.json] exists; when the file does not exist, its only write is
    the one of [init_user_db], which creates the file with an empty list. *)
Theorem failed_calls_keep_records
    (generate_password_hash : str -> str -> str)
    (check_password_hash : str -> str -> bool)
    (salt now email password first_name last_name : str) (d : disk) :
  (fst (register_user generate_password_hash salt now
          email password first_name last_name d)
   = (false, py "Email already registered") ->
   snd (register_user generate_password_hash salt now
          email password first_name last_name d) = d) /\
  stored_users (snd (verify_user check_password_hash email password d))
  = stored_users d /\
  (users_json d <> None ->
   snd (verify_user check_password_hash email password d) = d) /\
  (users_json d = None ->
   snd (verify_user check_password_hash email password d)
   = {| users_json := Some []; dumped := dumped d ++ [[]] |}).
Proof.
  rewrite register_user_eq, verify_user_eq; simpl.
  split; [|split; [apply stored_users_initialised | split]].
  - destruct (find_user_loop email (stored_users d)) as [u|] eqn:Hfind; simpl;
      [intros _ | discriminate].
    unfold stored_users in Hfind.
    destruct (users_json d) as [users|] eqn:E; [|discriminate].
    exact (initialised_existing d users E).
  - destruct (users_json d) as [users|] eqn:E; [intros _ | congruence].
    exact (initialised_existing d users E).
  - intros E. unfold initialised. rewrite init_user_db_eq, E. reflexivity.
Qed.

(** ** The email identifies a user *)

(** No two stored records have the same email. *)
Lemma register_user_unique_emails
    (generate_password_hash : str -> str -> str)
    (salt now email password first_name last_name : str) (d : disk) :
  NoDup (map u_email (stored_users d)) ->
  NoDup (map u_email
           (stored_users (snd (register_user generate_password_hash salt now
                                 email password first_name last_name d)))).
Proof.
  intros Hd. rewrite register_user_eq.
  destruct (find_user_loop email (stored_users d)) eqn:Hfind; simpl.
  - rewrite stored_users_initialised; exact Hd.
  - rewrite stored_users_Some, map_app; simpl.
    apply NoDup_app; [exact Hd | repeat constructor; intros [] |].
    intros e (u & <- & Hu)%in_map_iff [He|[]].
    apply (proj1 (find_user_loop_None _ _) Hfind u Hu); auto.
Qed.

Lemma run_calls_unique_emails
    (generate_password_hash : str -> str -> str)
    (check_password_hash : str -> str -> bool) (cs : list call) (d : disk) :
  NoDup (map u_email (stored_users d)) ->
  NoDup (map u_email
           (stored_users
              (run_calls generate_password_hash check_password_hash cs d))).
Proof.
  revert d; induction cs as [|c cs IH]; intros d Hd; simpl; [exact Hd|].
  apply IH. destruct c; simpl.
  - apply register_user_unique_emails; exact Hd.
  - rewrite verify_user_eq; simpl. rewrite stored_users_initialised; exact Hd.
Qed.

(** With distinct emails, the record [find_user] returns is the only one
    with the email. *)
Lemma find_user_loop_unique (email : str) (users : list user) (u : user) :
  NoDup (map u_email users) -> In u users -> u_email u = email ->
  find_user_loop email users = Some u.
Proof.
  induction users as [|v users IH]; simpl; [intros _ []|].
  intros Hnd Hin He. apply NoDup_cons_iff in Hnd as [Hv Hnd].
  destruct (str_eqb (u_email v) email) eqn:E.
  - apply str_eqb_eq in E. destruct Hin as [->|Hin]; [reflexivity|].
    exfalso; apply Hv, in_map_iff. exists u; split; [congruence | exact Hin].
  - apply str_eqb_neq in E. destruct Hin as [->|Hin]; [congruence | auto].
Qed.

(** ** Passwords *)

Lemma dumps_are_prefixes_initialised (d : disk) :
  dumps_are_prefixes d -> dumps_are_prefixes (initialised d).
Proof.
  unfold dumps_are_prefixes, initialised. rewrite init_user_db_eq; simpl.
  destruct (users_json d) as [users|] eqn:E; [auto|].
  intros H l [Hl|[<-|[]]]%in_app_or.
  - destruct (H l Hl) as [rest Hr]. exists rest.
    unfold stored_users in *. rewrite E in Hr. simpl. exact Hr.
  - exists []; reflexivity.
Qed.

Section RunFacts.

Variable generate_password_hash : str -> str -> str.
Variable check_password_hash : str -> str -> bool.

Let run := run_calls generate_password_hash check_password_hash.
Let passwords := registered_passwords generate_password_hash check_password_hash.
Let holds_hash_of := holds_hash_of generate_password_hash.

(** A run appends one record for each registration that succeeds, with
    the hash of the password of that registration. *)
Lemma run_calls_appends (cs : list call) (d : disk) :
  dumps_are_prefixes d ->
  dumps_are_prefixes (run cs d) /\
  exists added,
    stored_users (run cs d) = stored_users d ++ added /\
    Forall2 holds_hash_of added (passwords cs d).
Proof.
  revert d; induction cs as [|c cs IH]; intros d Hd; simpl.
  - split; [exact Hd|]. exists []; rewrite app_nil_r; auto.
  - destruct c as [salt now email password first_name last_name
                  |email password]; simpl.
    + rewrite register_user_eq.
      destruct (find_user_loop email (stored_users d)); simpl.
      * destruct (IH (initialised d) (dumps_are_prefixes_initialised d Hd))
          as [Hp (added & Hs & Hf)].
        split; [exact Hp|]. exists added.
        rewrite stored_users_initialised in Hs; auto.
      * match goal with
        | |- context [run cs ?d1] =>
            destruct (IH d1) as [Hp (added & Hs & Hf)]
        end.
        { intros l [Hl|[<-|[]]]%in_app_or; rewrite stored_users_Some.
          - destruct (dumps_are_prefixes_initialised d Hd l Hl) as [rest Hr].
            rewrite stored_users_initialised in Hr.
            eexists; rewrite Hr, <- app_assoc; reflexivity.
          - exists []; rewrite app_nil_r; reflexivity. }
        split; [exact Hp|]. eexists; split.
        -- rewrite Hs, stored_users_Some, <- app_assoc; reflexivity.
        -- constructor; [exists salt; reflexivity | exact Hf].
    + rewrite verify_user_eq; simpl.
      destruct (IH (initialised d) (dumps_are_prefixes_initialised d Hd))
        as [Hp (added & Hs & Hf)].
      split; [exact Hp|]. exists added.
      rewrite stored_users_initialised in Hs; auto.
Qed.

End RunFacts.

Lemma Forall2_In_left {A B : Type} (R : A -> B -> Prop) (l1 : list A)
    (l2 : list B) (x : A) :
  Forall2 R l1 l2 -> In x l1 -> exists y, In y l2 /\ R x y.
Proof.
  induction 1 as [|a b l1 l2 Hab _ IH]; simpl; [intros []|].
  intros [<-|Hx]; [exists b; auto|].
  destruct (IH Hx) as (y & Hy & Hr); exists y; auto.
Qed.

(** C7: [register_user] stores a hash of the password, [verify_user]
    decides by the hash check alone, and in every state reached by calls
    of the two functions from a machine without [users.json] each stored
    record, and each record ever dumped, holds a hash of the password its
    registration supplied and not that password; all this for a hashing
    whose output differs from its input. *)
Theorem password_never_plaintext
    (generate_password_hash : str -> str -> str)
    (check_password_hash : str -> str -> bool) :
  (forall salt password, generate_password_hash salt password <> password) ->
  (forall salt now email password first_name last_name d,
     fst (register_user generate_password_hash salt now
            email password first_name last_name d) = (true, py "") ->
     exists u,
       stored_users (snd (register_user generate_password_hash salt now
                            email password first_name last_name d))
       = stored_users d ++ [u] /\
       u_password u = generate_password_hash salt password /\
       u_password u <> password) /\
  (forall email password d u,
     find_user_loop email (stored_users d) = Some u ->
     fst (fst (verify_user check_password_hash email password d))
     = check_password_hash (u_password u) password) /\
  (forall cs,
     let d := run_calls generate_password_hash check_password_hash cs no_file in
     let passwords :=
       registered_passwords generate_password_hash check_password_hash
         cs no_file in
     Forall2 (hashed_not_plain generate_password_hash)
       (stored_users d) passwords /\
     forall l u, In l (dumped d) -> In u l ->
       exists password,
         In password passwords /\
         hashed_not_plain generate_password_hash u password).
Proof.
  intros Hhash. split; [|split].
  - intros salt now email password first_name last_name d.
    rewrite register_user_eq.
    destruct (find_user_loop email (stored_users d)); simpl; [discriminate|].
    intros _. eexists; split; [reflexivity|]. simpl; auto.
  - intros email password d u Hfind. rewrite verify_user_eq, Hfind; simpl.
    destruct (check_password_hash (u_password u) password); reflexivity.
  - intros cs d passwords.
    destruct (run_calls_appends generate_password_hash check_password_hash
                cs no_file) as [Hp (added & Hs & Hf)].
    { intros l []. }
    fold d in Hp, Hs. fold passwords in Hf. simpl in Hs.
    assert (Hall : Forall2 (hashed_not_plain generate_password_hash)
                     (stored_users d) passwords).
    { rewrite Hs. clear -Hf Hhash.
      induction Hf as [|u p us ps [salt Hu] _ IH]; constructor; [|exact IH].
      split; [exists salt; exact Hu | rewrite Hu; apply Hhash]. }
    split; [exact Hall|].
    intros l u Hl Hu. destruct (Hp l Hl) as [rest Hr].
    apply (Forall2_In_left _ _ _ u Hall).
    rewrite Hr; apply in_or_app; auto.
Qed.

Lemma password_never_plaintext_witness :
  Forall2 (hashed_not_plain demo_generate_password_hash)
    (stored_users
       (run_calls demo_generate_password_hash demo_check_password_hash
          [ Verify (py "a@x.com") (py "pw");
            Register (py "s4lt") (py "t1") (py "a@x.com") (py "pw") (py "A") (py "B");
            Register (py "pepr") (py "t2") (py "a@x.com") (py "other") (py "C") (py "D");
            Register (py "sel") (py "t3") (py "b@x.com") (py "pw") (py "E") (py "F") ]
          no_file))
    [py "pw"; py "pw"].
Proof.
  apply (proj1 (proj2 (proj2
    (password_never_plaintext demo_generate_password_hash
       demo_check_password_hash demo_generate_not_plain))
    [ Verify (py "a@x.com") (py "pw");
      Register (py "s4lt") (py "t1") (py "a@x.com") (py "pw") (py "A") (py "B");
      Register (py "pepr") (py "t2") (py "a@x.com") (py "other") (py "C") (py "D");
      Register (py "sel") (py "t3") (py "b@x.com") (py "pw") (py "E") (py "F") ])).
Defined.

(** ** The gateway *)

Lemma timeout_is_RequestError (e : exn) :
  is_TimeoutException e = true \/ is_NetworkError e = true ->
  is_RequestError e = true.
Proof.
  unfold is_RequestError; intros [-> | ->]; [reflexivity|].
  rewrite orb_true_r; reflexivity.
Qed.

(** Only what is no [Exception] leaves [generate_ai_response]. *)
Lemma generate_ai_response_raises (api_key : str)
    (client_post : str -> json -> outcome response) (user_message : json)
    (e : exn) :
  generate_ai_response api_key client_post user_message = Raises e ->
  is_Exception e = false.
Proof.
  unfold generate_ai_response.
  destruct (generate_ai_response_try api_key client_post user_message)
    as [v|e']; [discriminate|].
  destruct (is_RequestError e'); [discriminate|].
  destruct (is_Exception e') eqn:E; [discriminate|].
  intros [= <-]; exact E.
Qed.

(** C2, as stated, fails: for a response with status 500,
    [raise_for_status] raises [HTTPStatusError], which is no
    [RequestError]; the second [except] clause answers, with the other
    fallback. *)
Lemma generate_ai_response_status_500 :
  network_failure (server_error (api_url (py "k")) (payload (JStr (py "hello")))) /\
  generate_ai_response (py "k") server_error (JStr (py "hello"))
  = Returns (JStr (py "An unexpected error occurred while generating the response.")) /\
  generate_ai_response (py "k") server_error (JStr (py "hello"))
  <> Returns (JStr (py "Error: Could not connect to the AI service.")).
Proof.
  split; [|split; [reflexivity | discriminate]].
  right. eexists; split; [reflexivity|]. right; reflexivity.
Qed.

(** C2, amended: when the remote call fails at the network level,
    [generate_ai_response] raises nothing and returns a fixed string:
    ["Error: Could not connect to the AI service."] when the call raised
    a timeout or a connection error, and ["An unexpected error occurred
    while generating the response."] when the response has a status that
    is not 2xx. *)
Theorem generate_ai_response_network_failure (api_key : str)
    (client_post : str -> json -> outcome response) (user_message : json) :
  network_failure (client_post (api_url api_key) (payload user_message)) ->
  generate_ai_response api_key client_post user_message
  = Returns (JStr
      match client_post (api_url api_key) (payload user_message) with
      | Raises _ => py "Error: Could not connect to the AI service."
      | Returns _ => py "An unexpected error occurred while generating the response."
      end).
Proof.
  unfold generate_ai_response, generate_ai_response_try.
  intros [(e & -> & He) | (resp & -> & Hs)]; simpl.
  - rewrite (timeout_is_RequestError e He); reflexivity.
  - unfold raise_for_status.
    assert ((200 <=? status resp)%Z && (status resp <=? 299)%Z = false) as ->.
    { apply andb_false_iff. destruct Hs as [H|H]; [left|right]; lia. }
    reflexivity.
Qed.

Lemma generate_ai_response_network_failure_witness :
  generate_ai_response (py "k") timed_out (JStr (py "hello"))
  = Returns (JStr (py "Error: Could not connect to the AI service.")).
Proof.
  apply (generate_ai_response_network_failure (py "k") timed_out
           (JStr (py "hello"))).
  left. exists ReadTimeout. split; [reflexivity | left; reflexivity].
Defined.

(** A well-formed answer of the endpoint gives its text back. *)
Example generate_ai_response_success :
  generate_ai_response (py "k")
    (fun _ _ => Returns {| status := 200; body := Some (JDict [ (py "candidates",
       JList [ JDict [ (py "content", JDict [ (py "parts",
         JList [ JDict [ (py "text", JStr (py "Drink water.")) ] ]) ]) ] ]) ]) |})
    (JStr (py "hello"))
  = Returns (JStr (py "Drink water.")).
Proof. reflexivity. Qed.

(** ** The route [/send_message] *)

(** C6: with a user in the session, a request whose JSON object has no
    message, or an empty one, or one of white space only, is answered with
    status 400, and the handler finishes without awaiting the gateway. *)
Theorem send_message_blank (req : request) (data : json) :
  dict_get (py "user") (session req) <> None ->
  request_json req = Returns data ->
  blank_message data ->
  send_message req
  = Finished (Returns (JDict [ (py "error", JStr (py "Message cannot be empty")) ],
                       400%Z)) /\
  gateway_calls (send_message req) = [] /\
  forall api_key client_post,
    serve_send_message api_key client_post req
    = Returns (JDict [ (py "error", JStr (py "Message cannot be empty")) ], 400%Z).
Proof.
  intros Hsession Hjson (d & -> & Hmsg).
  assert (Hsend : send_message req
    = Finished (Returns (JDict [ (py "error", JStr (py "Message cannot be empty")) ],
                         400%Z))).
  { unfold send_message.
    destruct (dict_get (py "user") (session req)); [|congruence].
    rewrite Hjson; simpl.
    destruct Hmsg as [-> | (s & -> & Hs)]; simpl.
    - reflexivity.
    - apply strip_nil_iff in Hs; rewrite Hs; reflexivity. }
  split; [exact Hsend|]. split.
  - rewrite Hsend; reflexivity.
  - intros. unfold serve_send_message. rewrite Hsend; reflexivity.
Qed.

Lemma send_message_blank_witness :
  send_message
    {| session := [ (py "user", JDict [ (py "email", JStr (py "a@x.com")) ]) ];
       request_json := Returns (JDict [ (py "message", JStr [32; 9; 12288]%N) ]) |}
  = Finished (Returns (JDict [ (py "error", JStr (py "Message cannot be empty")) ],
                       400%Z)).
Proof.
  apply (send_message_blank
    {| session := [ (py "user", JDict [ (py "email", JStr (py "a@x.com")) ]) ];
       request_json := Returns (JDict [ (py "message", JStr [32; 9; 12288]%N) ]) |}
    (JDict [ (py "message", JStr [32; 9; 12288]%N) ])).
  - discriminate.
  - reflexivity.
  - eexists; split; [reflexivity|]. right. eexists; split; reflexivity.
Defined.

(** A message with text is passed to the gateway as it is. *)
Example send_message_awaits :
  gateway_calls (send_message
    {| session := [ (py "user", JNull) ];
       request_json := Returns (JDict [ (py "message", JStr (py " hi ")) ]) |})
  = [JStr (py " hi ")].
Proof. reflexivity. Qed.

(** Without a session the answer is 401. *)
Example send_message_not_logged_in (r : outcome json) :
  send_message {| session := []; request_json := r |}
  = Finished (Returns (JDict [ (py "error", JStr (py "Not logged in")) ], 401%Z)).
Proof. reflexivity. Qed.

(** * Further properties *)

(** ** The database helpers *)

(** X2: [get_users] returns the content of an existing [users.json] and
    leaves the disk as it is; without the file it returns the empty list
    and creates the file with that list; a second read in a row returns
    the same records and writes nothing. *)
Theorem get_users_reads (d : disk) :
  (forall users, users_json d = Some users -> get_users d = (users, d)) /\
  (users_json d = None ->
   get_users d = ([], {| users_json := Some []; dumped := dumped d ++ [[]] |})) /\
  get_users (snd (get_users d)) = get_users d.
Proof.
  rewrite !get_users_eq; simpl. split; [|split].
  - intros users E. rewrite (initialised_existing d users E).
    unfold stored_users; rewrite E; reflexivity.
  - intros E. unfold stored_users, initialised.
    rewrite init_user_db_eq, E; reflexivity.
  - rewrite initialised_idem, stored_users_initialised. reflexivity.
Qed.

(** X3: [find_user] returns the first stored record with the email, and
    [None] exactly when no stored record has it. *)
Theorem find_user_first_match (email : str) (d : disk) :
  (forall u,
     fst (find_user email d) = Some u <->
     exists before after,
       stored_users d = before ++ u :: after /\ u_email u = email /\
       forall v, In v before -> u_email v <> email) /\
  (fst (find_user email d) = None <->
   forall u, In u (stored_users d) -> u_email u <> email) /\
  stored_users (snd (find_user email d)) = stored_users d.
Proof.
  rewrite find_user_eq; simpl. split; [|split].
  - intros u; apply find_user_loop_Some.
  - apply find_user_loop_None.
  - apply stored_users_initialised.
Qed.

Lemma find_user_loop_app_old (email : str) (users added : list user) (u : user) :
  find_user_loop email users = Some u ->
  find_user_loop email (users ++ added) = Some u.
Proof.
  induction users as [|v users IH]; simpl; [discriminate|].
  destruct (str_eqb (u_email v) email); auto.
Qed.

Lemma find_user_loop_app_other (email : str) (users : list user) (u : user) :
  u_email u <> email ->
  find_user_loop email (users ++ [u]) = find_user_loop email users.
Proof.
  intros Hne%str_eqb_neq. induction users as [|v users IH]; simpl.
  - rewrite Hne; reflexivity.
  - destruct (str_eqb (u_email v) email); auto.
Qed.

(** ** Runs of [register_user] and [verify_user] *)

(** X4: whatever calls are made, the records stored before stay where
    they are, unchanged, and the store grows by one record for each
    registration that succeeds. *)
Theorem run_calls_only_appends
    (generate_password_hash : str -> str -> str)
    (check_password_hash : str -> str -> bool) (cs : list call) (d : disk) :
  exists added,
    stored_users (run_calls generate_password_hash check_password_hash cs d)
    = stored_users d ++ added /\
    length added
    = registrations generate_password_hash check_password_hash cs d.
Proof.
  unfold registrations.
  revert d; induction cs as [|c cs IH]; intros d; simpl.
  - exists []; rewrite app_nil_r; auto.
  - destruct c as [salt now email password first_name last_name
                  |email password]; simpl.
    + rewrite register_user_eq.
      destruct (find_user_loop email (stored_users d)); simpl.
      * destruct (IH (initialised d)) as (added & Hs & Hl).
        exists added. rewrite stored_users_initialised in Hs; auto.
      * match goal with
        | |- context [run_calls _ _ cs ?d1] =>
            destruct (IH d1) as (added & Hs & Hl)
        end.
        rewrite stored_users_Some, <- app_assoc in Hs.
        eexists; split; [exact Hs|]. simpl; rewrite Hl; reflexivity.
    + rewrite verify_user_eq; simpl.
      destruct (IH (initialised d)) as (added & Hs & Hl).
      exists added. rewrite stored_users_initialised in Hs; auto.
Qed.

(** X5: an account is never lost or replaced: the record that [find_user]
    returns for an email is still the one it returns after any further
    calls. *)
Theorem run_calls_keeps_account
    (generate_password_hash : str -> str -> str)
    (check_password_hash : str -> str -> bool)
    (cs : list call) (d : disk) (email : str) (u : user) :
  fst (find_user email d) = Some u ->
  fst (find_user email
         (run_calls generate_password_hash check_password_hash cs d))
  = Some u.
Proof.
  rewrite !find_user_eq; simpl. intros Hfind.
  destruct (run_calls_only_appends generate_password_hash
              check_password_hash cs d) as (added & -> & _).
  apply find_user_loop_app_old; exact Hfind.
Qed.

Lemma run_calls_keeps_account_witness :
  fst (find_user (py "a@x.com")
         (run_calls demo_generate_password_hash demo_check_password_hash
            [ Register (py "x") (py "t2") (py "a@x.com") (py "other") (py "C") (py "D");
              Register (py "y") (py "t3") (py "b@x.com") (py "pw") (py "E") (py "F") ]
            demo_disk))
  = Some demo_user.
Proof.
  apply (run_calls_keeps_account demo_generate_password_hash
           demo_check_password_hash
           [ Register (py "x") (py "t2") (py "a@x.com") (py "other") (py "C") (py "D");
             Register (py "y") (py "t3") (py "b@x.com") (py "pw") (py "E") (py "F") ]
           demo_disk (py "a@x.com") demo_user).
  reflexivity.
Defined.

(** X6: when the stored emails are distinct they are still distinct after
    any calls whose strings are text: the email identifies a user. *)
Theorem emails_stay_distinct
    (generate_password_hash : str -> str -> str)
    (check_password_hash : str -> str -> bool) (cs : list call) (d : disk) :
  forallb text_call cs = true ->
  NoDup (map u_email (stored_users d)) ->
  NoDup (map u_email
           (stored_users
              (run_calls generate_password_hash check_password_hash cs d))).
Proof.
  intros _. apply run_calls_unique_emails.
Qed.

Lemma emails_stay_distinct_witness :
  NoDup (map u_email
           (stored_users
              (run_calls demo_generate_password_hash demo_check_password_hash
                 [ Register (py "s4lt") (py "t1") (py "a@x.com") (py "pw") (py "A") (py "B");
                   Register (py "x") (py "t2") (py "a@x.com") (py "other") (py "C") (py "D");
                   Verify (py "a@x.com") (py "pw");
                   Register (py "y") (py "t3") (py "b@x.com") (py "pw") (py "E") (py "F") ]
                 no_file))).
Proof.
  apply (emails_stay_distinct demo_generate_password_hash
           demo_check_password_hash
           [ Register (py "s4lt") (py "t1") (py "a@x.com") (py "pw") (py "A") (py "B");
             Register (py "x") (py "t2") (py "a@x.com") (py "other") (py "C") (py "D");
             Verify (py "a@x.com") (py "pw");
             Register (py "y") (py "t3") (py "b@x.com") (py "pw") (py "E") (py "F") ]
           no_file).
  - reflexivity.
  - simpl. constructor.
Defined.

(** X7: with distinct stored emails, [verify_user] called with the email
    of a stored record decides by the hash of that very record: it
    returns the record when the check accepts the password, and
    ["Incorrect password"] otherwise. *)
Theorem verify_user_stored_record
    (check_password_hash : str -> str -> bool)
    (password : str) (d : disk) (u : user) :
  NoDup (map u_email (stored_users d)) ->
  In u (stored_users d) ->
  fst (verify_user check_password_hash (u_email u) password d)
  = if check_password_hash (u_password u) password
    then (true, PUser u)
    else (false, PStr (py "Incorrect password")).
Proof.
  intros Hnd Hin. rewrite verify_user_eq; simpl.
  rewrite (find_user_loop_unique (u_email u) _ u Hnd Hin eq_refl).
  reflexivity.
Qed.

Lemma verify_user_stored_record_witness :
  fst (verify_user demo_check_password_hash (u_email demo_user) (py "nope")
         demo_disk)
  = if demo_check_password_hash (u_password demo_user) (py "nope")
    then (true, PUser demo_user)
    else (false, PStr (py "Incorrect password")).
Proof.
  apply (verify_user_stored_record demo_check_password_hash (py "nope")
           demo_disk demo_user).
  - simpl. repeat constructor. intros [].
  - simpl. left; reflexivity.
Defined.

(** X8: registering one email, with an email and a password that are
    text, changes the answer of [verify_user] for no other email. *)
Theorem register_user_keeps_verify
    (generate_password_hash : str -> str -> str)
    (check_password_hash : str -> str -> bool)
    (salt now email password first_name last_name : str)
    (email' password' : str) (d : disk) :
  is_text email = true -> is_text password = true ->
  email' <> email ->
  fst (verify_user check_password_hash email' password'
         (snd (register_user generate_password_hash salt now
                 email password first_name last_name d)))
  = fst (verify_user check_password_hash email' password' d).
Proof.
  intros _ _ Hne. rewrite !verify_user_eq, register_user_eq; simpl.
  destruct (find_user_loop email (stored_users d)); simpl.
  - rewrite stored_users_initialised; reflexivity.
  - rewrite stored_users_Some, find_user_loop_app_other; [reflexivity|].
    simpl; congruence.
Qed.

Lemma register_user_keeps_verify_witness :
  fst (verify_user demo_check_password_hash (py "a@x.com") (py "pw")
         (snd (register_user demo_generate_password_hash (py "y") (py "t3")
                 (py "b@x.com") (py "pw2") (py "E") (py "F") demo_disk)))
  = fst (verify_user demo_check_password_hash (py "a@x.com") (py "pw") demo_disk).
Proof.
  apply (register_user_keeps_verify demo_generate_password_hash
           demo_check_password_hash (py "y") (py "t3")
           (py "b@x.com") (py "pw2") (py "E") (py "F")
           (py "a@x.com") (py "pw") demo_disk).
  - reflexivity.
  - reflexivity.
  - discriminate.
Defined.

(** X9: [verify_user] succeeds exactly when [find_user] returns a record
    for the email and the hash check accepts the password against the
    hash of that record; the record it returns is that one, so it has the
    given email. *)
Theorem verify_user_success_iff
    (check_password_hash : str -> str -> bool)
    (email password : str) (d : disk) (u : user) :
  (fst (verify_user check_password_hash email password d) = (true, PUser u) <->
   fst (find_user email d) = Some u /\
   check_password_hash (u_password u) password = true) /\
  (fst (verify_user check_password_hash email password d) = (true, PUser u) ->
   u_email u = email /\ In u (stored_users d)) /\
  (forall s, fst (verify_user check_password_hash email password d)
             <> (true, PStr s)).
Proof.
  rewrite verify_user_eq, find_user_eq; simpl.
  destruct (find_user_loop email (stored_users d)) as [v|] eqn:Hfind.
  - destruct (check_password_hash (u_password v) password) eqn:Hc.
    + split; [|split].
      * split; [intros [= ->]; auto | intros [[= ->] _]; reflexivity].
      * intros [= <-]. destruct (find_user_loop_In _ _ _ Hfind); auto.
      * discriminate.
    + split; [|split]; try discriminate.
      split; [discriminate | intros [[= ->] H]; congruence].
  - split; [|split]; try discriminate.
    split; [discriminate | intros [[=] _]].
Qed.

(** ** The gateway, case by case *)

Lemma obind_raises_only {A B : Type} (m : outcome A) (k : A -> outcome B) :
  raises_exceptions_only m ->
  (forall a, raises_exceptions_only (k a)) ->
  raises_exceptions_only (obind m k).
Proof.
  intros Hm Hk e. destruct m as [a|e']; simpl; [apply Hk|].
  intros [= <-]. apply Hm; reflexivity.
Qed.

Lemma Returns_raises_only {A : Type} (a : A) : raises_exceptions_only (Returns a).
Proof. intros e; discriminate. Qed.

Lemma py_get_raises_only (v : json) (key : str) :
  raises_exceptions_only (py_get v key).
Proof. intros e; destruct v; simpl; intros [= <-]; reflexivity. Qed.

Lemma py_item_raises_only (v : json) (key : str) :
  raises_exceptions_only (py_item v key).
Proof.
  intros e; destruct v; simpl; try (intros [= <-]; reflexivity).
  destruct (dict_get key d); intros [= <-]; reflexivity.
Qed.

Lemma py_item0_raises_only (v : json) : raises_exceptions_only (py_item0 v).
Proof.
  intros e; destruct v as [| | | |[|c s]|[|x l]|]; simpl;
    intros [= <-]; reflexivity.
Qed.

Lemma raise_for_status_raises_only (r : response) :
  raises_exceptions_only (raise_for_status r).
Proof.
  intros e; unfold raise_for_status.
  destruct (_ && _); intros [= <-]; reflexivity.
Qed.

Lemma response_json_raises_only (r : response) :
  raises_exceptions_only (response_json r).
Proof.
  intros e; unfold response_json. destruct (body r); intros [= <-]; reflexivity.
Qed.

Create HintDb raises.

#[local] Hint Resolve Returns_raises_only py_get_raises_only
  py_item_raises_only py_item0_raises_only raise_for_status_raises_only
  response_json_raises_only : raises.

Ltac raises_only :=
  repeat first
    [ apply obind_raises_only; [|intros ?]
    | match goal with
      | |- raises_exceptions_only (if ?b then _ else _) => destruct b
      end
    | solve [auto with raises] ].

(** What the body of the [try] raises beyond an [Exception] is what the
    remote call raised. *)
Lemma generate_ai_response_try_raises (api_key : str)
    (client_post : str -> json -> outcome response) (user_message : json)
    (e : exn) :
  generate_ai_response_try api_key client_post user_message = Raises e ->
  is_Exception e = false ->
  client_post (api_url api_key) (payload user_message) = Raises e.
Proof.
  unfold generate_ai_response_try.
  destruct (client_post (api_url api_key) (payload user_message))
    as [resp|e']; simpl.
  - intros H He. exfalso.
    assert (Hr : is_Exception e = true); [|congruence].
    revert e H He. 
    match goal with
    | |- forall e, ?m = Raises e -> _ =>
        assert (Hm : raises_exceptions_only m) by raises_only
    end.
    intros e H _. exact (Hm e H).
  - intros [= ->] _; reflexivity.
Qed.

(** X10: [generate_ai_response] raises an exception exactly when the
    remote call raises one that is no [Exception], such as a
    cancellation; everything else ends in a returned value. *)
Theorem generate_ai_response_raises_iff (api_key : str)
    (client_post : str -> json -> outcome response) (user_message : json)
    (e : exn) :
  generate_ai_response api_key client_post user_message = Raises e <->
  client_post (api_url api_key) (payload user_message) = Raises e /\
  is_Exception e = false.
Proof.
  split.
  - intros H. pose proof (generate_ai_response_raises _ _ _ _ H) as He.
    split; [|exact He].
    apply generate_ai_response_try_raises; [|exact He].
    unfold generate_ai_response in H.
    destruct (generate_ai_response_try api_key client_post user_message)
      as [v|e']; [discriminate|].
    destruct (is_RequestError e'); [discriminate|].
    destruct (is_Exception e'); [discriminate|]. exact H.
  - intros [Hpost He].
    unfold generate_ai_response, generate_ai_response_try.
    rewrite Hpost; simpl. destruct e; try discriminate. reflexivity.
Qed.

Lemma is_success_raise_for_status (r : response) :
  is_success r = true -> raise_for_status r = Returns tt.
Proof. unfold raise_for_status, is_success; intros ->; reflexivity. Qed.

Lemma dict_get_truthy (key : str) (d : list (str * json)) (v : json) :
  dict_get key d = Some v -> truthy (JDict d) = true.
Proof. destruct d; [discriminate | reflexivity]. Qed.

(** X11: when the endpoint answers with a 2xx status and a JSON object
    that has a text under
    [['candidates'][0]['content']['parts'][0]['text']],
    [generate_ai_response] returns that text as it is. *)
Theorem generate_ai_response_text (api_key : str)
    (client_post : str -> json -> outcome response) (user_message : json)
    (resp : response) (result text : json) :
  client_post (api_url api_key) (payload user_message) = Returns resp ->
  is_success resp = true ->
  body resp = Some result ->
  has_text result text ->
  generate_ai_response api_key client_post user_message = Returns text.
Proof.
  intros Hpost Hok Hbody (d & c & cs & k & p & ps & -> & Hc & Hk & Hp & Ht).
  unfold generate_ai_response, generate_ai_response_try.
  rewrite Hpost; simpl.
  rewrite (is_success_raise_for_status resp Hok); simpl.
  unfold response_json; rewrite Hbody; simpl.
  rewrite Hc; simpl. rewrite Hk; cbn -[truthy dict_get py].
  rewrite (dict_get_truthy _ _ _ Hp), Hp; simpl.
  rewrite Ht; reflexivity.
Qed.

Lemma generate_ai_response_text_witness :
  generate_ai_response (py "k")
    (fun _ _ => Returns {| status := 200; body := Some (JDict [ (py "candidates",
       JList [ JDict [ (py "content", JDict [ (py "parts",
         JList [ JDict [ (py "text", JInt 7) ] ]) ]) ] ]) ]) |})
    (JStr (py "hello"))
  = Returns (JInt 7).
Proof.
  eapply (generate_ai_response_text (py "k") _ (JStr (py "hello"))).
  - reflexivity.
  - reflexivity.
  - reflexivity.
  - do 6 eexists. repeat split; reflexivity.
Defined.

(** X12: when the endpoint answers with a 2xx status and a JSON object in
    which [candidates], or the [content] of the first candidate, or the
    [parts] of that content is missing or false, [generate_ai_response]
    returns the fixed reply ["I'm sorry, I couldn't generate a response at
    the moment."]. *)
Theorem generate_ai_response_no_parts (api_key : str)
    (client_post : str -> json -> outcome response) (user_message : json)
    (resp : response) (result : json) :
  client_post (api_url api_key) (payload user_message) = Returns resp ->
  is_success resp = true ->
  body resp = Some result ->
  lacks_parts result ->
  generate_ai_response api_key client_post user_message
  = Returns no_response_fallback.
Proof.
  intros Hpost Hok Hbody (d & -> & Hshape).
  unfold generate_ai_response, generate_ai_response_try.
  rewrite Hpost; simpl.
  rewrite (is_success_raise_for_status resp Hok); simpl.
  unfold response_json; rewrite Hbody; simpl.
  unfold falsy_at in Hshape.
  destruct Hshape as [Hc | (c & cs & Hc & Hshape)].
  - destruct (dict_get (py "candidates") d) as [v|]; simpl;
      [rewrite Hc|]; reflexivity.
  - rewrite Hc; simpl.
    destruct Hshape as [Hk | (k & Hk & Hp)].
    + destruct (dict_get (py "content") c) as [v|]; simpl;
        [rewrite Hk|]; reflexivity.
    + rewrite Hk; cbn -[truthy dict_get py].
      destruct (truthy (JDict k)); [|reflexivity].
      destruct (dict_get (py "parts") k) as [v|]; cbn -[truthy dict_get py];
        [rewrite Hp|]; reflexivity.
Qed.

Lemma generate_ai_response_no_parts_witness :
  generate_ai_response (py "k")
    (fun _ _ => Returns {| status := 200;
                           body := Some (JDict [ (py "candidates", JList []) ]) |})
    (JStr (py "hello"))
  = Returns no_response_fallback.
Proof.
  eapply (generate_ai_response_no_parts (py "k") _ (JStr (py "hello"))).
  - reflexivity.
  - reflexivity.
  - reflexivity.
  - eexists; split; [reflexivity|]. left. reflexivity.
Defined.

(** X13: when the endpoint answers with a 2xx status and a body that is
    not JSON, or is JSON but no object, [generate_ai_response] returns the
    fixed reply ["An unexpected error occurred while generating the
    response."]. *)
Theorem generate_ai_response_not_an_object (api_key : str)
    (client_post : str -> json -> outcome response) (user_message : json)
    (resp : response) :
  client_post (api_url api_key) (payload user_message) = Returns resp ->
  is_success resp = true ->
  match body resp with
  | Some result => is_dict result = false
  | None => True
  end ->
  generate_ai_response api_key client_post user_message
  = Returns unexpected_fallback.
Proof.
  intros Hpost Hok Hbody.
  unfold generate_ai_response, generate_ai_response_try.
  rewrite Hpost; simpl.
  rewrite (is_success_raise_for_status resp Hok); simpl.
  unfold response_json. destruct (body resp) as [result|]; [|reflexivity].
  destruct result; try discriminate; reflexivity.
Qed.

Lemma generate_ai_response_not_an_object_witness :
  generate_ai_response (py "k")
    (fun _ _ => Returns {| status := 200; body := Some (JList []) |})
    (JStr (py "hello"))
  = Returns unexpected_fallback.
Proof.
  eapply (generate_ai_response_not_an_object (py "k") _ (JStr (py "hello"))).
  - reflexivity.
  - reflexivity.
  - reflexivity.
Defined.

(** X14: a value that [generate_ai_response] returns is one of its three
    fixed replies, or the text that a 2xx answer of the endpoint holds
    under [['candidates'][0]['content']['parts'][0]['text']]; nothing
    else of an answer reaches the caller. *)
Theorem generate_ai_response_returns (api_key : str)
    (client_post : str -> json -> outcome response) (user_message : json)
    (v : json) :
  generate_ai_response api_key client_post user_message = Returns v ->
  v = connection_fallback \/ v = unexpected_fallback \/
  v = no_response_fallback \/
  exists resp result,
    client_post (api_url api_key) (payload user_message) = Returns resp /\
    is_success resp = true /\
    body resp = Some result /\
    has_text result v.
Proof.
  unfold generate_ai_response.
  destruct (generate_ai_response_try api_key client_post user_message)
    as [w|e] eqn:Htry.
  2:{ destruct (is_RequestError e); [intros [= <-]; auto|].
      destruct (is_Exception e); [intros [= <-]; auto | discriminate]. }
  intros [= ->]. right; right.
  unfold generate_ai_response_try in Htry.
  destruct (client_post (api_url api_key) (payload user_message))
    as [resp|] eqn:Hpost; [|discriminate].
  cbn [obind] in Htry. unfold raise_for_status in Htry.
  fold (is_success resp) in Htry.
  destruct (is_success resp) eqn:Hok; [|discriminate].
  cbn [obind] in Htry. unfold response_json in Htry.
  destruct (body resp) as [result|] eqn:Hbody; [|discriminate].
  cbn [obind] in Htry.
  destruct result as [| | | | | |d]; try discriminate.
  cbn -[truthy dict_get py] in Htry.
  destruct (dict_get (py "candidates") d) as [cands|] eqn:Hc;
    [|injection Htry as <-; auto].
  destruct (truthy cands) eqn:Tc; [|injection Htry as <-; auto].
  destruct cands as [| | | |[|ch s]|[|cand cs]|]; try discriminate.
  cbn -[truthy dict_get py] in Htry.
  destruct cand as [| | | | | |c]; try discriminate.
  cbn -[truthy dict_get py] in Htry.
  destruct (dict_get (py "content") c) as [content|] eqn:Hk;
    [|injection Htry as <-; auto].
  destruct (truthy content) eqn:Tk; [|injection Htry as <-; auto].
  destruct content as [| | | | | |k]; try discriminate.
  cbn -[truthy dict_get py] in Htry.
  destruct (dict_get (py "parts") k) as [parts|] eqn:Hp;
    [|injection Htry as <-; auto].
  destruct (truthy parts) eqn:Tp; [|injection Htry as <-; auto].
  destruct parts as [| | | |[|ch s]|[|part ps]|]; try discriminate.
  cbn -[truthy dict_get py] in Htry.
  destruct part as [| | | | | |p]; try discriminate.
  cbn -[truthy dict_get py] in Htry.
  destruct (dict_get (py "text") p) as [text|] eqn:Ht; [|discriminate].
  injection Htry as <-. right.
  exists resp, (JDict d). repeat split; auto.
  exists d, c, cs, k, p, ps. auto.
Qed.

Lemma generate_ai_response_returns_witness :
  unexpected_fallback = connection_fallback \/
  unexpected_fallback = unexpected_fallback \/
  unexpected_fallback = no_response_fallback \/
  exists resp result,
    server_error (api_url (py "k")) (payload (JStr (py "hello"))) = Returns resp /\
    is_success resp = true /\
    body resp = Some result /\
    has_text result unexpected_fallback.
Proof.
  apply (generate_ai_response_returns (py "k") server_error (JStr (py "hello"))).
  reflexivity.
Defined.

(** ** The route [/send_message], case by case *)

Lemma strip_cons_iff (s : str) :
  forallb isspace s = false <-> exists c rest, strip s = c :: rest.
Proof.
  pose proof (strip_nil_iff s) as H. destruct (strip s) as [|c rest].
  - split; [intros E | intros (c & rest & [=])].
    rewrite (proj1 H eq_refl) in E; discriminate.
  - split; [intros _; exists c, rest; reflexivity|]. intros _.
    destruct (forallb isspace s); [|reflexivity].
    discriminate (proj2 H eq_refl).
Qed.

(** X15: without a user in the session [send_message] answers 401: it
    does not read the body and does not call the gateway. *)
Theorem send_message_requires_session (req : request) :
  dict_get (py "user") (session req) = None ->
  send_message req
  = Finished (Returns (JDict [ (py "error", JStr (py "Not logged in")) ], 401%Z)) /\
  gateway_calls (send_message req) = [] /\
  forall api_key client_post,
    serve_send_message api_key client_post req
    = Returns (JDict [ (py "error", JStr (py "Not logged in")) ], 401%Z).
Proof.
  intros H. unfold serve_send_message, send_message. rewrite H.
  repeat split.
Qed.

Lemma send_message_requires_session_witness :
  send_message {| session := [ (py "theme", JStr (py "dark")) ];
                  request_json := Raises BadRequest |}
  = Finished (Returns (JDict [ (py "error", JStr (py "Not logged in")) ], 401%Z)).
Proof.
  apply (send_message_requires_session
           {| session := [ (py "theme", JStr (py "dark")) ];
              request_json := Raises BadRequest |}).
  reflexivity.
Defined.

(** X16: with a user in the session and a message that is a string with
    some character that is no white space, [send_message] calls the
    gateway once, with the message as it was sent (not stripped), and
    answers 200 with what the gateway returns under [reply]. *)
Theorem send_message_forwards (req : request) (d : list (str * json))
    (s : str) :
  dict_get (py "user") (session req) <> None ->
  request_json req = Returns (JDict d) ->
  dict_get (py "message") d = Some (JStr s) ->
  forallb isspace s = false ->
  gateway_calls (send_message req) = [JStr s] /\
  forall api_key client_post,
    serve_send_message api_key client_post req
    = match generate_ai_response api_key client_post (JStr s) with
      | Returns ai_reply => Returns (JDict [ (py "reply", ai_reply) ], 200%Z)
      | Raises e => Raises e
      end.
Proof.
  intros Hsession Hjson Hmsg (c & rest & Hs)%strip_cons_iff.
  unfold serve_send_message, send_message.
  destruct (dict_get (py "user") (session req)); [|congruence].
  rewrite Hjson; cbn -[py]. rewrite Hmsg; cbn -[py strip]. rewrite Hs.
  split; [reflexivity|]. intros api_key client_post.
  destruct (generate_ai_response api_key client_post (JStr s)); reflexivity.
Qed.

Lemma send_message_forwards_witness :
  gateway_calls (send_message
    {| session := [ (py "user", JNull) ];
       request_json := Returns (JDict [ (py "message", JStr (py " hi ")) ]) |})
  = [JStr (py " hi ")].
Proof.
  apply (send_message_forwards
    {| session := [ (py "user", JNull) ];
       request_json := Returns (JDict [ (py "message", JStr (py " hi ")) ]) |}
    [ (py "message", JStr (py " hi ")) ] (py " hi ")).
  - discriminate.
  - reflexivity.
  - reflexivity.
  - reflexivity.
Defined.

(** X17: with a user in the session, a body that is JSON but no object,
    or an object whose message is no string (null, a number, a list ...),
    makes [send_message] raise [AttributeError]; the gateway is not
    called. *)
Theorem send_message_bad_body (req : request) (data : json) :
  dict_get (py "user") (session req) <> None ->
  request_json req = Returns data ->
  (is_dict data = false \/
   exists d v, data = JDict d /\ dict_get (py "message") d = Some v /\
               is_str v = false) ->
  send_message req = Finished (Raises AttributeError) /\
  gateway_calls (send_message req) = [].
Proof.
  intros Hsession Hjson Hbad.
  assert (Hsend : send_message req = Finished (Raises AttributeError)).
  { unfold send_message.
    destruct (dict_get (py "user") (session req)); [|congruence].
    rewrite Hjson.
    destruct Hbad as [Hd | (d & v & -> & Hm & Hv)].
    - destruct data; try discriminate; reflexivity.
    - cbn -[py]. rewrite Hm. destruct v; try discriminate; reflexivity. }
  rewrite Hsend; auto.
Qed.

Lemma send_message_bad_body_witness :
  send_message
    {| session := [ (py "user", JNull) ];
       request_json := Returns (JDict [ (py "message", JNull) ]) |}
  = Finished (Raises AttributeError).
Proof.
  apply (send_message_bad_body
    {| session := [ (py "user", JNull) ];
       request_json := Returns (JDict [ (py "message", JNull) ]) |}
    (JDict [ (py "message", JNull) ])).
  - discriminate.
  - reflexivity.
  - right. do 2 eexists. repeat split; reflexivity.
Defined.

(** X18: a chat message sent while the remote call fails with an
    [Exception] is still answered with status 200: the reply is the
    connection fallback for an [httpx.RequestError] and the unexpected
    error fallback for any other exception. *)
Theorem send_message_service_down (api_key : str)
    (client_post : str -> json -> outcome response)
    (req : request) (d : list (str * json)) (s : str) (e : exn) :
  dict_get (py "user") (session req) <> None ->
  request_json req = Returns (JDict d) ->
  dict_get (py "message") d = Some (JStr s) ->
  forallb isspace s = false ->
  client_post (api_url api_key) (payload (JStr s)) = Raises e ->
  is_Exception e = true ->
  serve_send_message api_key client_post req
  = Returns (JDict [ (py "reply",
                      if is_RequestError e then connection_fallback
                      else unexpected_fallback) ], 200%Z).
Proof.
  intros Hsession Hjson Hmsg (c & rest & Hs)%strip_cons_iff Hpost He.
  unfold serve_send_message, send_message.
  destruct (dict_get (py "user") (session req)); [|congruence].
  rewrite Hjson; cbn -[py]. rewrite Hmsg; cbn -[py strip]. rewrite Hs.
  unfold generate_ai_response, generate_ai_response_try.
  rewrite Hpost; cbn -[py]. rewrite He.
  destruct (is_RequestError e); reflexivity.
Qed.

Lemma send_message_service_down_witness :
  serve_send_message (py "k") timed_out
    {| session := [ (py "user", JNull) ];
       request_json := Returns (JDict [ (py "message", JStr (py "hi")) ]) |}
  = Returns (JDict [ (py "reply", connection_fallback) ], 200%Z).
Proof.
  apply (send_message_service_down (py "k") timed_out
    {| session := [ (py "user", JNull) ];
       request_json := Returns (JDict [ (py "message", JStr (py "hi")) ]) |}
    [ (py "message", JStr (py "hi")) ] (py "hi") ReadTimeout).
  - discriminate.
  - reflexivity.
  - reflexivity.
  - reflexivity.
  - reflexivity.
  - reflexivity.
Defined.

(** ** The session *)

Lemma dict_get_set_same (key : str) (v : json) (d : list (str * json)) :
  dict_get key (dict_set key v d) = Some v.
Proof.
  induction d as [|[k x] d IH]; simpl.
  - rewrite str_eqb_refl; reflexivity.
  - destruct (str_eqb k key) eqn:E; simpl; rewrite E; auto.
Qed.

Lemma dict_get_set_other (key k : str) (v : json) (d : list (str * json)) :
  k <> key -> dict_get k (dict_set key v d) = dict_get k d.
Proof.
  intros Hne. induction d as [|[k' x] d IH]; simpl.
  - assert (str_eqb key k = false) as -> by (apply str_eqb_neq; congruence).
    reflexivity.
  - destruct (str_eqb k' key) eqn:E; simpl.
    + apply str_eqb_eq in E; subst k'.
      assert (str_eqb key k = false) as -> by (apply str_eqb_neq; congruence).
      reflexivity.
    + destruct (str_eqb k' k); auto.
Qed.

Lemma dict_get_pop_same (key : str) (d : list (str * json)) :
  dict_get key (dict_pop key d) = None.
Proof.
  induction d as [|[k x] d IH]; simpl; [reflexivity|].
  destruct (str_eqb k key) eqn:E; simpl; [|rewrite E]; auto.
Qed.

Lemma dict_get_pop_other (key k : str) (d : list (str * json)) :
  k <> key -> dict_get k (dict_pop key d) = dict_get k d.
Proof.
  intros Hne. induction d as [|[k' x] d IH]; simpl; [reflexivity|].
  destruct (str_eqb k' key) eqn:E; simpl.
  - apply str_eqb_eq in E; subst k'.
    assert (str_eqb key k = false) as -> by (apply str_eqb_neq; congruence).
    exact IH.
  - destruct (str_eqb k' k); auto.
Qed.

Lemma dict_pop_absent (key : str) (d : list (str * json)) :
  dict_get key d = None -> dict_pop key d = d.
Proof.
  induction d as [|[k x] d IH]; simpl; [reflexivity|].
  destruct (str_eqb k key); [discriminate|]. intros H; rewrite IH; auto.
Qed.

Lemma dict_mem_false (key : str) (d : list (str * json)) :
  dict_get key d = None -> dict_mem key d = false.
Proof. unfold dict_mem; intros ->; reflexivity. Qed.

(** X19: [logout] removes the user from the session and nothing else; it
    can be repeated; afterwards the pages [chat] and [dashboard] redirect
    to the login page and the two API routes answer 401 without reading
    the body, calling the gateway or writing feedback. *)
Theorem logout_closes_session (session0 : list (str * json)) :
  let s := fst (logout session0) in
  snd (logout session0) = Redirect (py "home") /\
  dict_get (py "user") s = None /\
  (forall k, k <> py "user" -> dict_get k s = dict_get k session0) /\
  fst (logout s) = s /\
  chat s = Redirect (py "login") /\
  dashboard s = Redirect (py "login") /\
  (forall r,
     send_message {| session := s; request_json := r |}
     = Finished (Returns (JDict [ (py "error", JStr (py "Not logged in")) ],
                          401%Z))) /\
  (forall now r file,
     feedback now {| session := s; request_json := r |} file
     = (file, Returns (JDict [ (py "error", JStr (py "Not logged in")) ],
                       401%Z))).
Proof.
  cbn zeta. unfold logout; cbn [fst snd].
  pose proof (dict_get_pop_same (py "user") session0) as Hpop.
  repeat split.
  - exact Hpop.
  - intros k Hk; apply dict_get_pop_other; exact Hk.
  - apply dict_pop_absent; exact Hpop.
  - unfold chat. rewrite (dict_mem_false _ _ Hpop); reflexivity.
  - unfold dashboard. rewrite (dict_mem_false _ _ Hpop); reflexivity.
  - intros r. unfold send_message; cbn [session]. rewrite Hpop; reflexivity.
  - intros now r file. unfold feedback; cbn [session]. rewrite Hpop; reflexivity.
Qed.

(** ** The routes [login] and [signup] *)

Lemma pyval_item_names (u : user) :
  pyval_item (PUser u) (py "first_name") = Returns (u_first_name u) /\
  pyval_item (PUser u) (py "last_name") = Returns (u_last_name u).
Proof. split; reflexivity. Qed.

(** X20: a POST to [login] without a user in the session, with the email
    of a stored account and a password that its hash accepts, redirects
    to the dashboard and puts under [session['user']] the email of the
    form and the first and last name of the account, and nothing of the
    password hash; the other keys of the session and the stored records
    are unchanged, and the pages [chat] and [dashboard] are rendered from
    then on. *)
Theorem login_success
    (check_password_hash : str -> str -> bool)
    (email password : str) (session0 : list (str * json)) (d : disk)
    (u : user) :
  dict_get (py "user") session0 = None ->
  fst (find_user email d) = Some u ->
  check_password_hash (u_password u) password = true ->
  let r := login check_password_hash POST email password session0 d in
  snd (fst r) = Returns (Redirect (py "dashboard")) /\
  dict_get (py "user") (fst (fst r))
  = Some (JDict [ (py "email", JStr email);
                  (py "first_name", JStr (u_first_name u));
                  (py "last_name", JStr (u_last_name u)) ]) /\
  (forall k, k <> py "user" -> dict_get k (fst (fst r)) = dict_get k session0) /\
  stored_users (snd r) = stored_users d /\
  chat (fst (fst r)) = Render (py "chat.html") [] /\
  dashboard (fst (fst r)) = Render (py "dashboard.html") [].
Proof.
  intros Hs Hfind Hcheck. rewrite find_user_eq in Hfind; simpl in Hfind.
  cbn zeta. unfold login, bind. rewrite (dict_mem_false _ _ Hs).
  rewrite verify_user_eq, Hfind, Hcheck.
  destruct (pyval_item_names u) as [-> ->]. cbn -[py dict_set].
  unfold chat, dashboard, dict_mem.
  rewrite !dict_get_set_same. repeat split.
  - intros k Hk; apply dict_get_set_other; exact Hk.
  - apply stored_users_initialised.
Qed.

Lemma login_success_witness :
  let r := login demo_check_password_hash POST (py "a@x.com") (py "pw")
             [ (py "theme", JStr (py "dark")) ] demo_disk in
  snd (fst r) = Returns (Redirect (py "dashboard")) /\
  dict_get (py "user") (fst (fst r))
  = Some (JDict [ (py "email", JStr (py "a@x.com"));
                  (py "first_name", JStr (u_first_name demo_user));
                  (py "last_name", JStr (u_last_name demo_user)) ]) /\
  (forall k, k <> py "user" ->
             dict_get k (fst (fst r))
             = dict_get k [ (py "theme", JStr (py "dark")) ]) /\
  stored_users (snd r) = stored_users demo_disk /\
  chat (fst (fst r)) = Render (py "chat.html") [] /\
  dashboard (fst (fst r)) = Render (py "dashboard.html") [].
Proof.
  apply (login_success demo_check_password_hash (py "a@x.com") (py "pw")
           [ (py "theme", JStr (py "dark")) ] demo_disk demo_user);
    reflexivity.
Defined.

(** X21: a POST to [login] without a user in the session, for which
    [verify_user] fails, leaves the session as it is and renders the login
    page with the message of [verify_user] as its error: ["User not
    found"] or ["Incorrect password"]; the stored records are unchanged. *)
Theorem login_failure
    (check_password_hash : str -> str -> bool)
    (email password : str) (session0 : list (str * json)) (d : disk) :
  dict_get (py "user") session0 = None ->
  fst (fst (verify_user check_password_hash email password d)) = false ->
  let r := login check_password_hash POST email password session0 d in
  fst (fst r) = session0 /\
  (exists message,
     (message = py "User not found" \/ message = py "Incorrect password") /\
     fst (verify_user check_password_hash email password d)
     = (false, PStr message) /\
     snd (fst r)
     = Returns (Render (py "login.html") [ (py "error", JStr message) ])) /\
  stored_users (snd r) = stored_users d.
Proof.
  intros Hs. cbn zeta. unfold login, bind. rewrite (dict_mem_false _ _ Hs).
  rewrite verify_user_eq.
  destruct (find_user_loop email (stored_users d)) as [u|].
  - destruct (check_password_hash (u_password u) password);
      cbn -[py]; [discriminate|]. intros _.
    split; [reflexivity|]. split; [|apply stored_users_initialised].
    eexists; split; [right; reflexivity|]. split; reflexivity.
  - cbn -[py]. intros _.
    split; [reflexivity|]. split; [|apply stored_users_initialised].
    eexists; split; [left; reflexivity|]. split; reflexivity.
Qed.

Lemma login_failure_witness :
  let r := login demo_check_password_hash POST (py "a@x.com") (py "wrong")
             [] demo_disk in
  fst (fst r) = [] /\
  (exists message,
     (message = py "User not found" \/ message = py "Incorrect password") /\
     fst (verify_user demo_check_password_hash (py "a@x.com") (py "wrong")
            demo_disk)
     = (false, PStr message) /\
     snd (fst r)
     = Returns (Render (py "login.html") [ (py "error", JStr message) ])) /\
  stored_users (snd r) = stored_users demo_disk.
Proof.
  apply (login_failure demo_check_password_hash (py "a@x.com") (py "wrong")
           [] demo_disk); reflexivity.
Defined.

(** X22: [login] with a user already in the session, and a GET to
    [login], read nothing of the form or of the disk: session and disk
    are left as they are. A logged-in user is redirected to the
    dashboard, whatever the form holds. *)
Theorem login_reads_nothing
    (check_password_hash : str -> str -> bool) (method : http_method)
    (email password : str) (session0 : list (str * json)) (d : disk) :
  dict_get (py "user") session0 <> None \/ method = GET ->
  login check_password_hash method email password session0 d
  = ((session0,
      Returns (if dict_mem (py "user") session0
               then Redirect (py "dashboard")
               else Render (py "login.html") [ (py "error", JNull) ])),
     d).
Proof.
  unfold login, dict_mem.
  destruct (dict_get (py "user") session0); [reflexivity|].
  intros [H | ->]; [congruence | reflexivity].
Qed.

Lemma login_reads_nothing_witness :
  login demo_check_password_hash POST (py "b@x.com") (py "pw")
    [ (py "user", session_user (py "a@x.com") (py "A") (py "B")) ] no_file
  = (([ (py "user", session_user (py "a@x.com") (py "A") (py "B")) ],
      Returns (Redirect (py "dashboard"))),
     no_file).
Proof.
  apply (login_reads_nothing demo_check_password_hash POST (py "b@x.com")
           (py "pw")
           [ (py "user", session_user (py "a@x.com") (py "A") (py "B")) ]
           no_file).
  left; discriminate.
Defined.

(** X23: [signup] with an email that no stored record has registers the
    account, redirects to the dashboard and puts the email and the names
    of the form under [session['user']], in place of a user that was
    logged in before; the password is not put in the session. *)
Theorem signup_success
    (generate_password_hash : str -> str -> str)
    (salt now email password first_name last_name : str)
    (session0 : list (str * json)) (d : disk) :
  (forall u, In u (stored_users d) -> u_email u <> email) ->
  let r := signup generate_password_hash salt now
             email password first_name last_name session0 d in
  snd (fst r) = Redirect (py "dashboard") /\
  dict_get (py "user") (fst (fst r))
  = Some (JDict [ (py "email", JStr email);
                  (py "first_name", JStr first_name);
                  (py "last_name", JStr last_name) ]) /\
  (forall k, k <> py "user" -> dict_get k (fst (fst r)) = dict_get k session0) /\
  stored_users (snd r)
  = stored_users d ++ [ {| u_email := email;
                           u_password := generate_password_hash salt password;
                           u_first_name := first_name;
                           u_last_name := last_name;
                           u_created_at := now |} ].
Proof.
  intros Hfree%find_user_loop_None. cbn zeta. unfold signup, bind.
  rewrite register_user_eq, Hfree. cbn -[py dict_set].
  rewrite dict_get_set_same. repeat split.
  intros k Hk; apply dict_get_set_other; exact Hk.
Qed.

Lemma signup_success_witness :
  let r := signup demo_generate_password_hash (py "y") (py "t3")
             (py "b@x.com") (py "pw2") (py "E") (py "F")
             [ (py "user", session_user (py "a@x.com") (py "A") (py "B")) ]
             demo_disk in
  snd (fst r) = Redirect (py "dashboard") /\
  dict_get (py "user") (fst (fst r))
  = Some (JDict [ (py "email", JStr (py "b@x.com"));
                  (py "first_name", JStr (py "E"));
                  (py "last_name", JStr (py "F")) ]) /\
  (forall k, k <> py "user" ->
     dict_get k (fst (fst r))
     = dict_get k [ (py "user", session_user (py "a@x.com") (py "A") (py "B")) ]) /\
  stored_users (snd r)
  = stored_users demo_disk ++
    [ {| u_email := py "b@x.com";
         u_password := demo_generate_password_hash (py "y") (py "pw2");
         u_first_name := py "E";
         u_last_name := py "F";
         u_created_at := py "t3" |} ].
Proof.
  apply (signup_success demo_generate_password_hash (py "y") (py "t3")
           (py "b@x.com") (py "pw2") (py "E") (py "F")
           [ (py "user", session_user (py "a@x.com") (py "A") (py "B")) ]
           demo_disk).
  intros u [<-|[]]; discriminate.
Defined.

(** X24: [signup] with an email that a stored record has leaves session
    and disk as they are and renders the login page with the error
    ["Email already registered"] and the signup form shown. *)
Theorem signup_duplicate
    (generate_password_hash : str -> str -> str)
    (salt now email password first_name last_name : str)
    (session0 : list (str * json)) (d : disk) (u : user) :
  In u (stored_users d) -> u_email u = email ->
  signup generate_password_hash salt now
    email password first_name last_name session0 d
  = ((session0,
      Render (py "login.html")
        [ (py "signup_error", JStr (py "Email already registered"));
          (py "show_signup", JBool true) ]),
     d).
Proof.
  intros Hin He. unfold signup, bind. rewrite register_user_eq.
  destruct (find_user_loop email (stored_users d)) as [v|] eqn:Hfind.
  - unfold stored_users in Hin.
    destruct (users_json d) as [users|] eqn:E; [|destruct Hin].
    rewrite (initialised_existing d users E). reflexivity.
  - destruct (proj1 (find_user_loop_None _ _) Hfind u Hin He).
Qed.

Lemma signup_duplicate_witness :
  signup demo_generate_password_hash (py "y") (py "t3")
    (py "a@x.com") (py "other") (py "E") (py "F") [] demo_disk
  = (([],
      Render (py "login.html")
        [ (py "signup_error", JStr (py "Email already registered"));
          (py "show_signup", JBool true) ]),
     demo_disk).
Proof.
  apply (signup_duplicate demo_generate_password_hash (py "y") (py "t3")
           (py "a@x.com") (py "other") (py "E") (py "F") [] demo_disk
           demo_user).
  - simpl. left; reflexivity.
  - reflexivity.
Defined.

(** X25: sign up, log out, log in: when the hash check accepts the
    password a hash was generated from, a [login] with the email and the
    password of a successful [signup], made after a [logout], redirects
    to the dashboard and puts under [session['user']] what the [signup]
    had put there. *)
Theorem signup_logout_login
    (generate_password_hash : str -> str -> str)
    (check_password_hash : str -> str -> bool)
    (salt now email password first_name last_name : str)
    (session0 : list (str * json)) (d : disk) :
  (forall s p, check_password_hash (generate_password_hash s p) p = true) ->
  (forall u, In u (stored_users d) -> u_email u <> email) ->
  let r1 := signup generate_password_hash salt now
              email password first_name last_name session0 d in
  let s2 := fst (logout (fst (fst r1))) in
  let r3 := login check_password_hash POST email password s2 (snd r1) in
  snd (fst r3) = Returns (Redirect (py "dashboard")) /\
  dict_get (py "user") (fst (fst r3)) = dict_get (py "user") (fst (fst r1)) /\
  dict_get (py "user") (fst (fst r3))
  = Some (session_user email first_name last_name) /\
  snd r3 = snd r1.
Proof.
  intros Hcheck Hfree%find_user_loop_None. cbn zeta.
  set (added := new_user generate_password_hash salt now
                  email password first_name last_name).
  set (d1 := {| users_json := Some (stored_users d ++ [added]);
                dumped := dumped (initialised d) ++ [stored_users d ++ [added]] |}).
  assert (Hsignup :
    signup generate_password_hash salt now
      email password first_name last_name session0 d
    = ((dict_set (py "user") (session_user email first_name last_name) session0,
        Redirect (py "dashboard")), d1)).
  { unfold signup, bind. rewrite register_user_eq, Hfree. reflexivity. }
  rewrite Hsignup. cbn [fst snd]. unfold logout; cbn [fst].
  set (s2 := dict_pop (py "user") _).
  assert (Hlogin :
    login check_password_hash POST email password s2 d1
    = ((dict_set (py "user") (session_user email first_name last_name) s2,
        Returns (Redirect (py "dashboard"))), d1)).
  { assert (Hs2 : dict_get (py "user") s2 = None)
      by apply dict_get_pop_same.
    unfold login, bind. rewrite (dict_mem_false _ _ Hs2).
    rewrite verify_user_eq. unfold d1 at 1. rewrite stored_users_Some.
    rewrite (find_user_loop_app_new email _ added Hfree eq_refl).
    change (u_password added) with (generate_password_hash salt password).
    rewrite Hcheck. destruct (pyval_item_names added) as [-> ->].
    cbn -[py dict_set initialised].
    rewrite (initialised_existing d1 _ eq_refl). reflexivity. }
  rewrite Hlogin. cbn [fst snd]. rewrite !dict_get_set_same. repeat split.
Qed.

Lemma signup_logout_login_witness :
  let r1 := signup demo_generate_password_hash (py "y") (py "t3")
              (py "b@x.com") (py "pw2") (py "E") (py "F") [] demo_disk in
  let s2 := fst (logout (fst (fst r1))) in
  let r3 := login demo_check_password_hash POST (py "b@x.com") (py "pw2")
              s2 (snd r1) in
  snd (fst r3) = Returns (Redirect (py "dashboard")) /\
  dict_get (py "user") (fst (fst r3)) = dict_get (py "user") (fst (fst r1)) /\
  dict_get (py "user") (fst (fst r3))
  = Some (session_user (py "b@x.com") (py "E") (py "F")) /\
  snd r3 = snd r1.
Proof.
  apply (signup_logout_login demo_generate_password_hash
           demo_check_password_hash (py "y") (py "t3")
           (py "b@x.com") (py "pw2") (py "E") (py "F") [] demo_disk).
  - exact demo_check_generate.
  - intros u [<-|[]]; discriminate.
Defined.

(** ** The route [/feedback] *)

(** X26: [feedback] only ever appends: it adds one line to
    [feedback.json] and answers 200 with ["Feedback received"], or it
    leaves the file as it is and answers 401 or raises; the lines written
    before are never changed. *)
Theorem feedback_append_only (now : str) (req : request) (file : list json) :
  (exists feedback_entry,
     feedback now req file
     = (file ++ [feedback_entry],
        Returns (JDict [ (py "status", JStr (py "Feedback received")) ],
                 200%Z))) \/
  (fst (feedback now req file) = file /\
   (snd (feedback now req file)
    = Returns (JDict [ (py "error", JStr (py "Not logged in")) ], 401%Z) \/
    exists e, snd (feedback now req file) = Raises e)).
Proof.
  unfold feedback.
  destruct (dict_get (py "user") (session req)) as [user|];
    [|right; split; [reflexivity | left; reflexivity]].
  match goal with
  | |- context [match ?m with Returns _ => _ | Raises _ => _ end] =>
      destruct m as [feedback_entry|e]
  end.
  - left. exists feedback_entry. reflexivity.
  - right. split; [reflexivity | right; exists e; reflexivity].
Qed.

(** X27: for a logged-in user whose session entry has an email, and a
    body that is a JSON object, [feedback] answers 200 and appends the
    entry made of that email, of the [sentiment] and the [concern] of the
    body, [null] standing for one that is missing, and of the time of the
    call; nothing is validated or deduplicated, so the same request sent
    twice leaves two lines. *)
Theorem feedback_entry_written (now : str) (req : request)
    (file : list json) (user d : list (str * json)) (email : json) :
  dict_get (py "user") (session req) = Some (JDict user) ->
  dict_get (py "email") user = Some email ->
  request_json req = Returns (JDict d) ->
  let feedback_entry :=
    JDict [ (py "user", email);
            (py "sentiment",
             match dict_get (py "sentiment") d with Some v => v | None => JNull end);
            (py "concern",
             match dict_get (py "concern") d with Some v => v | None => JNull end);
            (py "timestamp", JStr now) ] in
  feedback now req file
  = (file ++ [feedback_entry],
     Returns (JDict [ (py "status", JStr (py "Feedback received")) ], 200%Z)) /\
  fst (feedback now req (fst (feedback now req file)))
  = file ++ [feedback_entry; feedback_entry].
Proof.
  intros Hs He Hj. cbn zeta.
  assert (H : forall f,
    feedback now req f
    = (f ++ [ JDict [ (py "user", email);
                      (py "sentiment",
                       match dict_get (py "sentiment") d with
                       | Some v => v | None => JNull end);
                      (py "concern",
                       match dict_get (py "concern") d with
                       | Some v => v | None => JNull end);
                      (py "timestamp", JStr now) ] ],
       Returns (JDict [ (py "status", JStr (py "Feedback received")) ], 200%Z))).
  { intros f. unfold feedback. rewrite Hs, Hj. cbn -[py dict_get].
    rewrite He. reflexivity. }
  split; [apply H|].
  rewrite !H. cbn [fst]. rewrite <- app_assoc. reflexivity.
Qed.

Lemma feedback_entry_written_witness :
  feedback (py "t9")
    {| session := [ (py "user", session_user (py "a@x.com") (py "A") (py "B")) ];
       request_json := Returns (JDict [ (py "sentiment", JStr (py "good")) ]) |}
    []
  = ([ JDict [ (py "user", JStr (py "a@x.com"));
               (py "sentiment", JStr (py "good"));
               (py "concern", JNull);
               (py "timestamp", JStr (py "t9")) ] ],
     Returns (JDict [ (py "status", JStr (py "Feedback received")) ], 200%Z)).
Proof.
  apply (feedback_entry_written (py "t9")
    {| session := [ (py "user", session_user (py "a@x.com") (py "A") (py "B")) ];
       request_json := Returns (JDict [ (py "sentiment", JStr (py "good")) ]) |}
    []
    [ (py "email", JStr (py "a@x.com"));
      (py "first_name", JStr (py "A"));
      (py "last_name", JStr (py "B")) ]
    [ (py "sentiment", JStr (py "good")) ]
    (JStr (py "a@x.com"))); reflexivity.
Defined.

(** X28: the feedback of a user who has logged in is filed under the
    email given at the login: after a successful [login], [feedback] with
    a JSON object appends an entry whose [user] is that email. *)
Theorem login_then_feedback
    (check_password_hash : str -> str -> bool)
    (email password now : str) (session0 : list (str * json)) (d : disk)
    (u : user) (data : list (str * json)) (file : list json) :
  dict_get (py "user") session0 = None ->
  fst (find_user email d) = Some u ->
  check_password_hash (u_password u) password = true ->
  let s := fst (fst (login check_password_hash POST email password session0 d)) in
  exists sentiment concern,
    feedback now {| session := s; request_json := Returns (JDict data) |} file
    = (file ++ [ JDict [ (py "user", JStr email);
                         (py "sentiment", sentiment);
                         (py "concern", concern);
                         (py "timestamp", JStr now) ] ],
       Returns (JDict [ (py "status", JStr (py "Feedback received")) ], 200%Z)).
Proof.
  intros Hs Hfind Hcheck. rewrite find_user_eq in Hfind; simpl in Hfind.
  cbn zeta. unfold login, bind. rewrite (dict_mem_false _ _ Hs).
  rewrite verify_user_eq, Hfind, Hcheck.
  destruct (pyval_item_names u) as [-> ->]. cbn -[py dict_set feedback].
  unfold feedback; cbn [session request_json].
  rewrite dict_get_set_same. do 2 eexists. reflexivity.
Qed.

Lemma login_then_feedback_witness :
  exists sentiment concern,
    feedback (py "t9")
      {| session :=
           fst (fst (login demo_check_password_hash POST (py "a@x.com")
                       (py "pw") [] demo_disk));
         request_json := Returns (JDict []) |} []
    = ([] ++ [ JDict [ (py "user", JStr (py "a@x.com"));
                       (py "sentiment", sentiment);
                       (py "concern", concern);
                       (py "timestamp", JStr (py "t9")) ] ],
       Returns (JDict [ (py "status", JStr (py "Feedback received")) ], 200%Z)).
Proof.
  apply (login_then_feedback demo_check_password_hash (py "a@x.com") (py "pw")
           (py "t9") [] demo_disk demo_user [] []); reflexivity.
Defined.
